(** * Weather dashboard (MiniProject.py): forecast pipeline, alerts,
      city comparison and geocoder.

    The script is a Streamlit page; the parts that transform data are
    embedded here as functions:

    - tab 1 (lines 110-146 and 202-210): truncation of the feed, the unit
      conversion loop, the alert checks and the daily [groupby] aggregation;
    - tab 3 (lines 385-442): [get_city_data] and the comparison branch;
    - the cached geocoder [get_city_coordinates] (lines 31-45).

    Conventions of the embedding.
    - JSON numbers (Python [int] / [float]) are exact rationals [Q] in the
      pipeline.  Selections and comparisons ([min], [max], [>]) are the same
      on doubles; where the rounding of an arithmetic result matters (the
      conversion, the mean) the computation is also given on IEEE binary64
      values, see [double].
    - Python exceptions are values of [exn]; fallible code lives in the
      error monad [result].
    - [requests.get] is an oracle from requests to responses, and the zone
      rules of the host ([datetime.fromtimestamp]) are an offset function;
      both are section variables.
    - pandas operations ([DataFrame], column access, [max], [groupby],
      [agg], [value_counts]) are modelled by list functions that follow
      their documented behaviour. *)

From Stdlib Require Import ZArith QArith Qminmax String Ascii Bool List.
From Stdlib Require Import Lia Lqa Sorted DecimalString SpecFloat.
Import ListNotations.

Local Open Scope string_scope.
Local Open Scope Z_scope.

Set Implicit Arguments.
Set Warnings "-register-all".

(* ------------------------------------------------------------------ *)
(** ** Python exceptions and the error monad *)

(** The exceptions the embedded code can raise.  The texts carried by
    [IndexError] and [TypeError] abbreviate the interpreter's messages;
    [RequestException] stands for any failure of the transport. *)
Inductive exn : Type :=
| KeyError (key : string)
| IndexError (msg : string)
| TypeError (msg : string)
| JSONDecodeError
| RequestException (msg : string).

Definition result (A : Type) : Type := (exn + A)%type.

Definition ret {A} (a : A) : result A := inr a.
Definition raise {A} (e : exn) : result A := inl e.

Definition bind {A B} (c : result A) (k : A -> result B) : result B :=
  match c with
  | inl e => inl e
  | inr a => k a
  end.

(** [try: c except: h] *)
Definition try_except {A} (c : result A) (h : exn -> result A) : result A :=
  match c with
  | inl e => h e
  | inr a => inr a
  end.

Declare Scope py_scope.
Delimit Scope py_scope with py.
Notation "x <- c ;; k" := (bind c (fun x => k))
  (at level 61, c at next level, right associativity) : py_scope.
Notation "c ;;; k" := (bind c (fun _ => k))
  (at level 61, right associativity) : py_scope.
Local Open Scope py_scope.

Fixpoint mapM {A B} (f : A -> result B) (l : list A) : result (list B) :=
  match l with
  | [] => ret []
  | a :: l' => b <- f a ;; bs <- mapM f l' ;; ret (b :: bs)
  end.

(** [str(e)] as used in the f-strings of the script. *)
Definition str_exn (e : exn) : string :=
  match e with
  | KeyError k => "'" ++ k ++ "'"
  | IndexError m => m
  | TypeError m => m
  | JSONDecodeError => "Expecting value: line 1 column 1 (char 0)"
  | RequestException m => m
  end.

(** [str(n)] for an integer. *)
Definition str_int (n : Z) : string := NilZero.string_of_int (Z.to_int n).

(* ------------------------------------------------------------------ *)
(** ** Python sequence helpers *)

(** [l[:k]]: a negative bound counts from the end. *)
Definition slice_to {A} (k : Z) (l : list A) : list A :=
  if k <? 0 then firstn (Z.to_nat (Z.of_nat (length l) + k)) l
  else firstn (Z.to_nat k) l.

Definition is_upper (c : ascii) : bool :=
  let n := nat_of_ascii c in (65 <=? n)%nat && (n <=? 90)%nat.
Definition is_lower (c : ascii) : bool :=
  let n := nat_of_ascii c in (97 <=? n)%nat && (n <=? 122)%nat.
Definition is_cased (c : ascii) : bool := is_upper c || is_lower c.
Definition to_upper (c : ascii) : ascii :=
  if is_lower c then ascii_of_nat (nat_of_ascii c - 32) else c.
Definition to_lower (c : ascii) : ascii :=
  if is_upper c then ascii_of_nat (nat_of_ascii c + 32) else c.

(** [str.title()] on ASCII text: a letter that follows a letter is
    lower-cased, any other letter is upper-cased.  Bytes outside the ASCII
    letters are kept and count as uncased. *)
Fixpoint title_from (previous_is_cased : bool) (s : string) : string :=
  match s with
  | EmptyString => EmptyString
  | String c s' =>
      String (if previous_is_cased then to_lower c else to_upper c)
             (title_from (is_cased c) s')
  end.
Definition title (s : string) : string := title_from false s.

(* ------------------------------------------------------------------ *)
(** ** Tab 1: data model *)

Inductive TempUnit : Type := Celsius | Fahrenheit.

(** The two labels of the sidebar radio button. *)
Definition unit_label (u : TempUnit) : string :=
  match u with
  | Celsius => "Celsius (°C)"
  | Fahrenheit => "Fahrenheit (°F)"
  end.

(** One entry of [data['list']] as the loop reads it:
    [item['dt']], [item['main']['temp']], [item['main']['humidity']],
    [item['wind']['speed']], [item['weather'][0]['description']],
    [item['weather'][0]['icon']]. *)
Record ForecastItem : Type := {
  dt : Z;
  temp : Q;
  humidity : Q;
  speed : Q;
  description : string;
  icon : string
}.

(** One dict appended to [forecast_data], a row of [forecast_df].
    [Datetime] is the naive local time in seconds; the temperature column is
    named after the unit, see [temp_col]. *)
Record Row : Type := {
  Datetime : Z;
  Temperature : Q;
  Humidity_pct : Q;
  Wind_Speed : Q;
  Description : string;
  Weather_Icon : string
}.

(** [pd.DataFrame(forecast_data)]: the rows in order.  A frame built from
    an empty list has no columns at all. *)
Definition DataFrame : Type := list Row.

(** [df[name]]: [KeyError] when the frame has no such column, which for the
    frames of this script happens exactly when the frame is empty. *)
Definition get_column {A} (name : string) (field : Row -> A) (df : DataFrame)
  : result (list A) :=
  match df with
  | [] => raise (KeyError name)
  | _ :: _ => ret (map field df)
  end.

Definition temp_col (u : TempUnit) : string :=
  match u with
  | Celsius => "Temperature (°C)"
  | Fahrenheit => "Temperature (°F)"
  end.

(** A row of [daily_forecast] after the columns are renamed (line 210). *)
Record DailyAggregate : Type := {
  Date : Z;
  Temp_Avg : Q;
  Temp_Min : Q;
  Temp_Max : Q;
  Humidity : Q;
  Wind : Q;
  Desc : string
}.

Inductive Alert : Type :=
| HighWind
| ExtremeHeat (threshold : Z).

(** The text appended to [alerts] (lines 143 and 146). *)
Definition message (a : Alert) : string :=
  match a with
  | HighWind => "⚠ High wind alert: Wind speed exceeds 10 m/s in forecast!"
  | ExtremeHeat t =>
      "🔥 Extreme heat warning: Temperatures above " ++ str_int t ++ "° expected!"
  end.

Definition is_wind (a : Alert) : bool :=
  match a with HighWind => true | ExtremeHeat _ => false end.
Definition is_heat (a : Alert) : bool :=
  match a with HighWind => false | ExtremeHeat _ => true end.

(* ------------------------------------------------------------------ *)
(** ** Tab 1: pandas series reductions *)

Definition Qgtb (x y : Q) : bool := negb (Qle_bool x y).

(** [Series.max()] / [Series.min()] of a non-empty series.  (The [NaN] of an
    empty series is not represented; every series reduced below is
    non-empty.) *)
Definition series_max (l : list Q) : Q :=
  match l with
  | [] => 0%Q
  | x :: xs => fold_left Qmax xs x
  end.
Definition series_min (l : list Q) : Q :=
  match l with
  | [] => 0%Q
  | x :: xs => fold_left Qmin xs x
  end.

Definition series_sum (l : list Q) : Q := fold_right Qplus 0%Q l.

(** [Series.mean()]: sum over count, as an exact quotient.  The script gets
    the rounded double of this quotient, see [double_mean]. *)
Definition series_mean (l : list Q) : Q :=
  (series_sum l / inject_Z (Z.of_nat (length l)))%Q.

(* ------------------------------------------------------------------ *)
(** ** Tab 1: [value_counts] and [groupby] *)

(** The hash-table pass of [value_counts]: one entry per distinct value, in
    order of first appearance, with its number of occurrences. *)
Fixpoint bump (k : string) (t : list (string * nat)) : list (string * nat) :=
  match t with
  | [] => [(k, 1%nat)]
  | (k', c) :: t' =>
      if String.eqb k k' then (k', S c) :: t' else (k', c) :: bump k t'
  end.

Definition count_table (l : list string) : list (string * nat) :=
  fold_left (fun t k => bump k t) l [].

(** [sort_values(ascending=False)] on the counts, as a stable sort: an
    entry goes in front of the first entry whose count is not larger, so
    entries with equal counts keep the table's order. *)
Fixpoint insert_desc (e : string * nat) (s : list (string * nat))
  : list (string * nat) :=
  match s with
  | [] => [e]
  | e' :: s' =>
      if (snd e' <=? snd e)%nat then e :: e' :: s' else e' :: insert_desc e s'
  end.

Definition sort_desc (t : list (string * nat)) : list (string * nat) :=
  fold_right insert_desc [] t.

(** [x.value_counts()]: (value, count) pairs, most frequent first. *)
Definition value_counts (l : list string) : list (string * nat) :=
  sort_desc (count_table l).

(** [lambda x: x.value_counts().index[0]] *)
Definition mode_description (l : list string) : result string :=
  match value_counts l with
  | [] => raise (IndexError "index 0 is out of bounds for axis 0 with size 0")
  | (k, _) :: _ => ret k
  end.

(** The group keys of [groupby]: the distinct values in ascending order. *)
Fixpoint insert_unique (d : Z) (ks : list Z) : list Z :=
  match ks with
  | [] => [d]
  | k :: ks' =>
      if d <? k then d :: k :: ks'
      else if d =? k then k :: ks'
      else k :: insert_unique d ks'
  end.

Definition sorted_unique (l : list Z) : list Z := fold_right insert_unique [] l.

(** [df.groupby(key)] with the default [sort=True]: for every distinct key,
    in ascending order, the rows carrying it, in frame order. *)
Definition groupby (key : Row -> Z) (df : DataFrame) : list (Z * list Row) :=
  map (fun d => (d, filter (fun r => key r =? d) df))
      (sorted_unique (map key df)).

(* ------------------------------------------------------------------ *)
(** ** Tab 1: the pipeline *)

(** Line 110: [data['list'][:forecast_days * 8]]. *)
Definition forecast_list (forecast_days : Z) (data_list : list ForecastItem)
  : list ForecastItem :=
  slice_to (forecast_days * 8) data_list.

(** Lines 114-116, on exact values; [convert_double] is the same expression
    on doubles. *)
Definition convert (u : TempUnit) (temp : Q) : Q :=
  match u with
  | Fahrenheit => (temp * 9 / 5 + 32)%Q
  | Celsius => temp
  end.

(** [.dt.date] of a naive local time, as a day number. *)
Definition date_of (local_seconds : Z) : Z := local_seconds / 86400.

Definition row_date (r : Row) : Z := date_of (Datetime r).

Section Tab1.

(** Offset of the host's zone from UTC, in seconds, at a given instant. *)
Variable utcoffset : Z -> Z.

(** [datetime.fromtimestamp(ts)] *)
Definition fromtimestamp (ts : Z) : Z := ts + utcoffset ts.

(** Lines 113-125: the body of the loop for one item. *)
Definition forecast_row (u : TempUnit) (item : ForecastItem) : Row :=
  {| Datetime := fromtimestamp (dt item);
     Temperature := convert u (temp item);
     Humidity_pct := humidity item;
     Wind_Speed := speed item;
     Description := title (description item);
     Weather_Icon := icon item |}.

(** Lines 111-127: [forecast_df]. *)
Definition forecast_data (u : TempUnit) (items : list ForecastItem)
  : DataFrame :=
  map (forecast_row u) items.

End Tab1.

Definition heat_threshold (u : TempUnit) : Z :=
  match u with Celsius => 35 | Fahrenheit => 95 end.

(** Lines 139-146. *)
Definition alerts (u : TempUnit) (forecast_df : DataFrame)
  : result (list Alert) :=
  wind <- get_column "Wind Speed (m/s)" Wind_Speed forecast_df ;;
  let alerts1 :=
    if Qgtb (series_max wind) 10 then [HighWind] else [] in
  temps <- get_column (temp_col u) Temperature forecast_df ;;
  ret (if Qgtb (series_max temps) (inject_Z (heat_threshold u))
       then (alerts1 ++ [ExtremeHeat (heat_threshold u)])%list
       else alerts1).

(** The [agg] of lines 203-208 on one group. *)
Definition aggregate (d : Z) (bucket : list Row) : result DailyAggregate :=
  let temps := map Temperature bucket in
  desc <- mode_description (map Description bucket) ;;
  ret {| Date := d;
         Temp_Avg := series_mean temps;
         Temp_Min := series_min temps;
         Temp_Max := series_max temps;
         Humidity := series_mean (map Humidity_pct bucket);
         Wind := series_mean (map Wind_Speed bucket);
         Desc := desc |}.

(** Lines 202-210. *)
Definition daily_forecast (forecast_df : DataFrame)
  : result (list DailyAggregate) :=
  get_column "Datetime" Datetime forecast_df ;;;
  mapM (fun g => aggregate (fst g) (snd g)) (groupby row_date forecast_df).

Section Tab1Pass.

Variable utcoffset : Z -> Z.

(** Lines 110-210 of one render: the frame, the alerts, the daily table. *)
Definition render_forecast (u : TempUnit) (forecast_days : Z)
           (data_list : list ForecastItem)
  : result (list Alert * list DailyAggregate) :=
  let forecast_df :=
    forecast_data utcoffset u (forecast_list forecast_days data_list) in
  al <- alerts u forecast_df ;;
  daily <- daily_forecast forecast_df ;;
  ret (al, daily).

End Tab1Pass.

(* ------------------------------------------------------------------ *)
(** ** Decoded JSON and the Python operations applied to it *)

(** What [response.json()] returns: [JNull] is [None], [JObj] a [dict]
    (an association list with distinct keys), [JArr] a [list]. *)
Inductive json : Type :=
| JNull
| JBool (b : bool)
| JNum (q : Q)
| JStr (s : string)
| JArr (items : list json)
| JObj (fields : list (string * json)).

(** Truth value of a Python object ([not v] is its negation). *)
Definition truthy (v : json) : bool :=
  match v with
  | JNull => false
  | JBool b => b
  | JNum q => negb (Qeq_bool q 0)
  | JStr s => negb (String.eqb s "")
  | JArr l => match l with [] => false | _ :: _ => true end
  | JObj kv => match kv with [] => false | _ :: _ => true end
  end.

Definition isinstance_list (v : json) : bool :=
  match v with JArr _ => true | _ => false end.

(** [len(v)], only applied to lists by the script. *)
Definition len (v : json) : result Z :=
  match v with
  | JArr l => ret (Z.of_nat (List.length l))
  | JObj kv => ret (Z.of_nat (List.length kv))
  | JStr s => ret (Z.of_nat (String.length s))
  | _ => raise (TypeError "object has no len()")
  end.

Fixpoint lookup (k : string) (kv : list (string * json)) : option json :=
  match kv with
  | [] => None
  | (k', v) :: kv' => if String.eqb k k' then Some v else lookup k kv'
  end.

(** [v[0]] *)
Definition getitem0 (v : json) : result json :=
  match v with
  | JArr [] => raise (IndexError "list index out of range")
  | JArr (x :: _) => ret x
  | JStr EmptyString => raise (IndexError "string index out of range")
  | JStr (String c _) => ret (JStr (String c EmptyString))
  | JObj _ => raise (KeyError "0")
  | _ => raise (TypeError "object is not subscriptable")
  end.

(** [v[key]] for a string key. *)
Definition getitem (v : json) (key : string) : result json :=
  match v with
  | JObj kv =>
      match lookup key kv with
      | Some x => ret x
      | None => raise (KeyError key)
      end
  | JArr _ => raise (TypeError "list indices must be integers or slices, not str")
  | JStr _ => raise (TypeError "string indices must be integers, not 'str'")
  | _ => raise (TypeError "object is not subscriptable")
  end.

(** Numbers as Python arithmetic sees them ([bool] is a subclass of [int]). *)
Definition as_number (v : json) : option Q :=
  match v with
  | JNum q => Some q
  | JBool true => Some 1%Q
  | JBool false => Some 0%Q
  | _ => None
  end.

(** [a + b] *)
Definition py_add (a b : json) : result json :=
  match as_number a, as_number b with
  | Some x, Some y => ret (JNum (x + y)%Q)
  | _, _ =>
      match a, b with
      | JStr s, JStr t => ret (JStr (s ++ t))
      | JArr l, JArr m => ret (JArr (l ++ m)%list)
      | _, _ => raise (TypeError "unsupported operand type(s) for +")
      end
  end.

(** [a / 2] *)
Definition py_half (a : json) : result json :=
  match as_number a with
  | Some x => ret (JNum (x / 2)%Q)
  | None => raise (TypeError "unsupported operand type(s) for /")
  end.

(* ------------------------------------------------------------------ *)
(** ** HTTP *)

(** The URLs the script requests (the API key is fixed for a render). *)
Inductive request : Type :=
| GeoDirect (city_name : string)          (* /geo/1.0/direct?q=..&limit=1 *)
| CurrentWeather (lat lon : json)          (* /data/2.5/weather?lat=..&lon=.. *)
| GeonamesSearch (city_name : string).     (* api.geonames.org/searchJSON *)

(** A [requests.Response]: the status and the body, [None] when the body
    is not JSON (then [.json()] raises). *)
Record response : Type := {
  status_code : Z;
  body : option json
}.

Definition json_of (r : response) : result json :=
  match body r with
  | Some v => ret v
  | None => raise JSONDecodeError
  end.

(* ------------------------------------------------------------------ *)
(** ** Tab 3: city comparison *)

(** The dict returned by [get_city_data]. *)
Record CityRecord : Type := {
  City : string;
  Latitude : json;
  Longitude : json;
  Population : json;
  City_Temperature : json;
  City_Humidity : json;
  Conditions : json;
  Icon : json
}.

(** What the comparison branch holds after lines 432-442: the two rows of
    [df] and the centre of the map. *)
Record ComparisonSet : Type := {
  first_city : CityRecord;
  second_city : CityRecord;
  avg_lat : json;
  avg_lon : json
}.

(** Outcome of the branch at line 428 when no exception escapes. *)
Inductive Comparison : Type :=
| Incomplete (error_message : string)      (* [st.error(...)], line 429 *)
| Compared (cs : ComparisonSet).

Definition incomplete_message : string :=
  "⚠️ Could not fetch data for one or both cities. Please check the city names.".

Section Http.

(** [requests.get(url)]: a response, or an exception of the transport. *)
Variable requests_get : request -> result response.

(** Lines 31-45.  The triple is made of Python values: [JNull] is [None].
    The [match] at the end is the [except Exception as e] clause.  The
    [st.cache_data] decorator replays the value computed here and is left
    out. *)
Definition get_city_coordinates (city_name : string) : json * json * json :=
  let attempt : result (json * json * json) :=
    response <- requests_get (GeoDirect city_name) ;;
    if status_code response =? 200 then
      data <- json_of response ;;
      nonempty_list <-
        (if isinstance_list data then n <- len data ;; ret (0 <? n)
         else ret false) ;;
      if nonempty_list then
        first <- getitem0 data ;;
        lat <- getitem first "lat" ;;
        first' <- getitem0 data ;;
        lon <- getitem first' "lon" ;;
        ret (lat, lon, JNull)
      else ret (JNull, JNull, JStr "City not found.")
    else
      ret (JNull, JNull, JStr ("API Error: " ++ str_int (status_code response)))
  in
  match attempt with
  | inr triple => triple
  | inl e => (JNull, JNull, JStr ("Connection error: " ++ str_exn e))
  end.

(** Lines 406-412: the population lookup with its bare [except]. *)
Definition get_population (city_name : string) : result json :=
  try_except
    (geonames_response <- requests_get (GeonamesSearch city_name) ;;
     if status_code geonames_response =? 200 then
       j <- json_of geonames_response ;;
       g <- getitem j "geonames" ;;
       g0 <- getitem0 g ;;
       getitem g0 "population"
     else ret (JStr "Data not available"))
    (fun _ => ret (JStr "Data not available")).

(** Lines 385-423.  [None] is the script's [return None]. *)
Definition get_city_data (city_name : string) : result (option CityRecord) :=
  geo_response <- requests_get (GeoDirect city_name) ;;
  no_result <-
    (if negb (status_code geo_response =? 200) then ret true
     else j <- json_of geo_response ;; ret (negb (truthy j))) ;;
  if no_result then ret None
  else
    j <- json_of geo_response ;;
    geo_data <- getitem0 j ;;
    lat <- getitem geo_data "lat" ;;
    lon <- getitem geo_data "lon" ;;
    weather_response <- requests_get (CurrentWeather lat lon) ;;
    if negb (status_code weather_response =? 200) then ret None
    else
      weather_data <- json_of weather_response ;;
      population <- get_population city_name ;;
      main <- getitem weather_data "main" ;;
      temperature <- getitem main "temp" ;;
      main' <- getitem weather_data "main" ;;
      hum <- getitem main' "humidity" ;;
      weather <- getitem weather_data "weather" ;;
      weather0 <- getitem0 weather ;;
      conditions <- getitem weather0 "description" ;;
      weather' <- getitem weather_data "weather" ;;
      weather0' <- getitem0 weather' ;;
      icon_code <- getitem weather0' "icon" ;;
      ret (Some {| City := title city_name;
                   Latitude := lat;
                   Longitude := lon;
                   Population := population;
                   City_Temperature := temperature;
                   City_Humidity := hum;
                   Conditions := conditions;
                   Icon := icon_code |}).

(** Lines 441-442 on two records. *)
Definition compose (data1 data2 : CityRecord) : result ComparisonSet :=
  lat_sum <- py_add (Latitude data1) (Latitude data2) ;;
  lat_mid <- py_half lat_sum ;;
  lon_sum <- py_add (Longitude data1) (Longitude data2) ;;
  lon_mid <- py_half lon_sum ;;
  ret {| first_city := data1;
         second_city := data2;
         avg_lat := lat_mid;
         avg_lon := lon_mid |}.

(** Lines 425-442: the body of the "Compare Cities" branch.  A dict
    returned by [get_city_data] is never empty, so [not data] holds
    exactly for [None]. *)
Definition compare_cities (city1 city2 : string) : result Comparison :=
  data1 <- get_city_data city1 ;;
  data2 <- get_city_data city2 ;;
  match data1, data2 with
  | Some d1, Some d2 => cs <- compose d1 d2 ;; ret (Compared cs)
  | _, _ => ret (Incomplete incomplete_message)
  end.

End Http.

(* ------------------------------------------------------------------ *)
(** ** Vocabulary of the statements *)

(** Keys of a count table and the count it stores for a key. *)
Definition keys (t : list (string * nat)) : list string := map fst t.

Fixpoint count_in (k : string) (t : list (string * nat)) : nat :=
  match t with
  | [] => 0%nat
  | (k', c) :: t' => if String.eqb k k' then c else count_in k t'
  end.

(** Number of occurrences of a description in a bucket. *)
Definition occurrences (l : list string) (y : string) : nat :=
  count_occ string_dec l y.

(** Position of the first occurrence ([length l] when there is none). *)
Fixpoint first_index (y : string) (l : list string) : nat :=
  match l with
  | [] => 0%nat
  | x :: l' => if String.eqb x y then 0%nat else S (first_index y l')
  end.

(** What a pass hands to the page: the list it computed, nothing when an
    exception ended the pass. *)
Definition emitted {A} (r : result (list A)) : list A :=
  match r with
  | inr l => l
  | inl _ => []
  end.

Definition wind_alerts (r : result (list Alert)) : nat :=
  List.length (filter is_wind (emitted r)).

Definition heat_alerts (r : result (list Alert)) : nat :=
  List.length (filter is_heat (emitted r)).

(** The calendar date the page shows for a feed item. *)
Definition item_date (utcoffset : Z -> Z) (item : ForecastItem) : Z :=
  date_of (fromtimestamp utcoffset (dt item)).

(** A feed item with the given time stamp, temperature, wind speed and
    description (humidity 50, icon 01d). *)
Definition sample_item (ts : Z) (t w : Q) (d : string) : ForecastItem :=
  {| dt := ts; temp := t; humidity := 50%Q; speed := w;
     description := d; icon := "01d" |}.

(** Eight items, three hours apart, from time stamp [start]. *)
Definition sample_day (start : Z) : list ForecastItem :=
  map (fun i => sample_item (start + 10800 * Z.of_nat i) 20%Q 3%Q "clear sky")
      (seq 0 8).

(** Twenty-four items over three consecutive UTC days. *)
Definition sample_feed : list ForecastItem :=
  (sample_day 0 ++ sample_day 86400 ++ sample_day 172800)%list.

(** The two result shapes of the geocoder: a coordinate pair and no
    error, or no coordinates and an error message. *)
Definition geocoder_shape (t : json * json * json) : Prop :=
  let '(lat, lon, err) := t in
  (lat <> JNull /\ lon <> JNull /\ err = JNull) \/
  (lat = JNull /\ lon = JNull /\ err <> JNull).

(** *** Sample upstream services *)

Definition ok_response (v : json) : result response :=
  ret {| status_code := 200; body := Some v |}.

Definition geo_entry (lat lon : Q) : json :=
  JObj [("lat", JNum lat); ("lon", JNum lon)].

Definition weather_payload (t h : Q) (desc icon_code : string) : json :=
  JObj [("main", JObj [("temp", JNum t); ("humidity", JNum h)]);
        ("weather", JArr [JObj [("description", JStr desc);
                                ("icon", JStr icon_code)]])].

Definition geonames_payload (population : Z) : json :=
  JObj [("geonames", JArr [JObj [("population", JNum (inject_Z population))]])].

(** Geocoding and population for two cities; any other name is a miss. *)
Definition sample_directory (rq : request) : result response :=
  match rq with
  | GeoDirect c =>
      if String.eqb c "Johannesburg" then
        ok_response (JArr [geo_entry (-262 # 10) (2804 # 100)])
      else if String.eqb c "Cape Town" then
        ok_response (JArr [geo_entry (-3393 # 100) (1842 # 100)])
      else ok_response (JArr [])
  | GeonamesSearch c =>
      if String.eqb c "Johannesburg" then ok_response (geonames_payload 5635127)
      else ret {| status_code := 401; body := Some (JObj []) |}
  | CurrentWeather _ _ => ret {| status_code := 404; body := None |}
  end.

(** Both cities are served. *)
Definition sample_oracle (rq : request) : result response :=
  match rq with
  | CurrentWeather (JNum lat) _ =>
      if Qle_bool lat (-30 # 1)
      then ok_response (weather_payload (165 # 10) 72 "light rain" "10d")
      else ok_response (weather_payload (215 # 10) 40 "clear sky" "01d")
  | _ => sample_directory rq
  end.

(** As [sample_oracle], but the weather service answers the second city
    with status 200 and an object that lacks the expected fields. *)
Definition one_sided_oracle (rq : request) : result response :=
  match rq with
  | CurrentWeather (JNum lat) _ =>
      if Qle_bool lat (-30 # 1)
      then ok_response (JObj [("cod", JNum 200)])
      else ok_response (weather_payload (215 # 10) 40 "clear sky" "01d")
  | _ => sample_directory rq
  end.

(** A geocoding service whose only result carries null coordinates. *)
Definition null_coordinates_oracle (rq : request) : result response :=
  ok_response (JArr [JObj [("name", JStr "Nowhere");
                           ("lat", JNull); ("lon", JNull)]]).

Definition johannesburg_record : CityRecord :=
  {| City := "Johannesburg";
     Latitude := JNum (-262 # 10);
     Longitude := JNum (2804 # 100);
     Population := JNum (inject_Z 5635127);
     City_Temperature := JNum (215 # 10);
     City_Humidity := JNum 40;
     Conditions := JStr "clear sky";
     Icon := JStr "01d" |}.

Definition cape_town_record : CityRecord :=
  {| City := "Cape Town";
     Latitude := JNum (-3393 # 100);
     Longitude := JNum (1842 # 100);
     Population := JStr "Data not available";
     City_Temperature := JNum (165 # 10);
     City_Humidity := JNum 72;
     Conditions := JStr "light rain";
     Icon := JStr "10d" |}.

(* ------------------------------------------------------------------ *)
(** ** The cached forecast fetcher *)

Section Fetcher.

(** [requests.get] on the forecast URL of a city (line 51). *)
Variable forecast_get : string -> result response.

(** Lines 47-57.  The pair is made of Python values: [JNull] is [None]. *)
Definition get_weather_forecast (city : string) : json * json :=
  let attempt : result (json * json) :=
    response <- forecast_get city ;;
    if status_code response =? 200 then
      data <- json_of response ;;
      ret (data, JNull)
    else
      ret (JNull, JStr ("API Error: " ++ str_int (status_code response)))
  in
  match attempt with
  | inr answer => answer
  | inl e => (JNull, JStr ("Connection error: " ++ str_exn e))
  end.

End Fetcher.

(* ------------------------------------------------------------------ *)
(** ** Tab 1: the hourly table *)

(** The choices of the "Data to Display" multiselect (line 79) and its
    default (line 80). *)
Definition data_filter_options : list string :=
  ["Temperature (°C)"; "Humidity (%)"; "Wind Speed (m/s)"; "Description"].

Definition default_data_filter : list string :=
  ["Temperature (°C)"; "Humidity (%)"; "Wind Speed (m/s)"].

(** Column labels of a non-empty [forecast_df] once line 202 has added
    [Date]: the keys of the dicts of lines 118-125, in order. *)
Definition frame_columns (u : TempUnit) : list string :=
  ["Datetime"; temp_col u; "Humidity (%)"; "Wind Speed (m/s)";
   "Description"; "Weather Icon"; "Date"].

(** [df[labels]] with a list of labels: [KeyError] when a label is not a
    column (the exception carries the first missing label here). *)
Definition select_columns (labels columns : list string)
  : result (list string) :=
  match filter (fun l => negb (existsb (String.eqb l) columns)) labels with
  | [] => ret labels
  | missing :: _ => raise (KeyError missing)
  end.

(** Lines 268-270: the labels of the table handed to [st.dataframe]. *)
Definition hourly_table (u : TempUnit) (data_filter : list string)
           (forecast_df : DataFrame) : result (list string) :=
  get_column "Datetime" Datetime forecast_df ;;;
  select_columns ("Datetime" :: data_filter) (frame_columns u).

(* ------------------------------------------------------------------ *)
(** ** Tab 3: the comparison metrics *)

Inductive chart : Type :=
| TemperatureChart       (* [px.bar(... y="Temperature" ...)] *)
| PopulationChart        (* [px.bar(... y="Population" ...)] *)
| PopulationWarning.     (* [st.warning(...)], line 516 *)

(** [isinstance(v, (int, float))]; [bool] is a subclass of [int]. *)
Definition isinstance_number (v : json) : bool :=
  match v with
  | JNum _ | JBool _ => true
  | _ => false
  end.

(** Lines 491-528: what is drawn under "Comparison Metrics". *)
Definition comparison_metrics (data1 data2 : CityRecord) : list chart :=
  if isinstance_number (Population data1)
     && isinstance_number (Population data2)
  then [TemperatureChart; PopulationChart]
  else [PopulationWarning; TemperatureChart].

(* ------------------------------------------------------------------ *)
(** ** Tab 2: historical data, up to the extraction of the daily series *)

Fixpoint is_substring (needle hay : string) : bool :=
  String.prefix needle hay
  || match hay with
     | EmptyString => false
     | String _ hay' => is_substring needle hay'
     end.

(** [key in v] for a string [key]. *)
Definition py_in (key : string) (v : json) : result bool :=
  match v with
  | JObj kv => ret (existsb (fun e => String.eqb key (fst e)) kv)
  | JArr l =>
      ret (existsb (fun x => match x with
                             | JStr s => String.eqb key s
                             | _ => false
                             end) l)
  | JStr s => ret (is_substring key s)
  | _ => raise (TypeError "argument is not iterable")
  end.

(** [v == 'text'] *)
Definition py_eq_str (v : json) (text : string) : bool :=
  match v with
  | JStr s => String.eqb s text
  | _ => false
  end.

(** The URLs requested by the tab. *)
Inductive hist_request : Type :=
| WeatherByName (city : string)       (* /data/2.5/weather?q=.. *)
| SunriseSunset (lat lon : json)      (* api.sunrise-sunset.org *)
| NasaPower (lat lon : json).         (* power.larc.nasa.gov, 2022-2024 *)

Inductive widget : Type :=
| Error (msg : string)                (* [st.error] *)
| Warning (msg : string)              (* [st.warning] *)
| Metric (label value : string)       (* [st.metric] *)
| DailyData (daily_data : json).      (* line 332 reached with this value *)

(** What a run does, in order. *)
Inductive event : Type :=
| Requested (rq : hist_request)
| Shown (w : widget).

(** A run: the events so far and the value or the exception that ended it. *)
Definition io (A : Type) : Type := (list event * result A)%type.

Definition io_ret {A} (a : A) : io A := ([], inr a).

Definition io_bind {A B} (c : io A) (k : A -> io B) : io B :=
  match c with
  | (t, inl e) => (t, inl e)
  | (t, inr a) => let '(t', r) := k a in ((t ++ t')%list, r)
  end.

Definition lift {A} (r : result A) : io A := ([], r).

Definition show (w : widget) : io unit := ([Shown w], inr tt).

Declare Scope io_scope.
Delimit Scope io_scope with io.
Notation "x <- c ;; k" := (io_bind c (fun x => k))
  (at level 61, c at next level, right associativity) : io_scope.
Notation "c ;;; k" := (io_bind c (fun _ => k))
  (at level 61, right associativity) : io_scope.

Definition is_nasa_request (e : event) : bool :=
  match e with
  | Requested (NasaPower _ _) => true
  | _ => false
  end.

Section Tab2.

Variable requests_get : hist_request -> result response.

(** [pd.to_datetime] on a JSON value and
    [.tz_convert('Africa/Johannesburg').strftime('%H:%M')] on its result. *)
Variable timestamp : Type.
Variable to_datetime : json -> result timestamp.
Variable local_hhmm : timestamp -> result string.

Definition get (rq : hist_request) : io response :=
  ([Requested rq], requests_get rq).

(** Lines 294-310, once the coordinates are known. *)
Definition daylight (latitude longitude : json) : io unit :=
  (sun_response <- get (SunriseSunset latitude longitude) ;;
   sun_data <- lift (json_of sun_response) ;;
   status <- lift (getitem sun_data "status") ;;
   if py_eq_str status "OK" then
     results <- lift (getitem sun_data "results") ;;
     sunrise <- lift (getitem results "sunrise") ;;
     sunrise_utc <- lift (to_datetime sunrise) ;;
     results' <- lift (getitem sun_data "results") ;;
     sunset <- lift (getitem results' "sunset") ;;
     sunset_utc <- lift (to_datetime sunset) ;;
     sunrise_local <- lift (local_hhmm sunrise_utc) ;;
     sunset_local <- lift (local_hhmm sunset_utc) ;;
     show (Metric "🌞 Daylight"
                  ("🌅 " ++ sunrise_local ++ " | 🌇 " ++ sunset_local))
   else show (Warning "Could not fetch sunrise/sunset data."))%io.

(** Lines 314-332: the NASA request and the extraction of
    [data['properties']['parameter']]. *)
Definition load_history (latitude longitude : json) : io unit :=
  (if truthy latitude && truthy longitude then
     response <- get (NasaPower latitude longitude) ;;
     data <- lift (json_of response) ;;
     has_properties <- lift (py_in "properties" data) ;;
     if negb has_properties then show (Error "Error: Data not found.")
     else
       properties <- lift (getitem data "properties") ;;
       daily_data <- lift (getitem properties "parameter") ;;
       show (DailyData daily_data)
   else io_ret tt)%io.

(** Lines 283-332. *)
Definition historical_tab (historical_city : string) : io unit :=
  (if String.eqb historical_city "" then io_ret tt
   else
     response <- get (WeatherByName historical_city) ;;
     data <- lift (json_of response) ;;
     found <- (if status_code response =? 200
               then lift (py_in "coord" data) else io_ret false) ;;
     coordinates <-
       (if found then
          coord <- lift (getitem data "coord") ;;
          latitude <- lift (getitem coord "lat") ;;
          coord' <- lift (getitem data "coord") ;;
          longitude <- lift (getitem coord' "lon") ;;
          daylight latitude longitude ;;;
          io_ret (latitude, longitude)
        else
          show (Error ("Could not find the city: " ++ historical_city)) ;;;
          io_ret (JNull, JNull)) ;;
     load_history (fst coordinates) (snd coordinates))%io.

End Tab2.

(** *** Sample services for the historical tab *)

(** Weather by name: one city on the prime meridian, one elsewhere, any
    other name unknown (404 with a JSON body). *)
Definition sample_history_oracle (rq : hist_request) : result response :=
  match rq with
  | WeatherByName c =>
      if String.eqb c "Greenwich" then
        ok_response (JObj [("coord", JObj [("lon", JNum 0);
                                           ("lat", JNum (5148 # 100))])])
      else if String.eqb c "Johannesburg" then
        ok_response (JObj [("coord", JObj [("lon", JNum (2804 # 100));
                                           ("lat", JNum (-262 # 10))])])
      else ret {| status_code := 404;
                  body := Some (JObj [("cod", JStr "404");
                                      ("message", JStr "city not found")]) |}
  | SunriseSunset _ _ => ok_response (JObj [("status", JStr "INVALID_REQUEST")])
  | NasaPower _ _ =>
      ok_response (JObj [("properties",
                          JObj [("parameter", JObj [("T2M", JObj [])])])])
  end.

(** A gateway that answers every request with status 502 and an HTML page. *)
Definition bad_gateway (rq : hist_request) : result response :=
  ret {| status_code := 502; body := None |}.

(** A feed of [n] items, three hours apart from time stamp 0. *)
Definition three_hourly_feed (n : nat) : list ForecastItem :=
  map (fun i => sample_item (10800 * Z.of_nat i) 20%Q 3%Q "clear sky")
      (seq 0 n).

(** [f] is the row [c] of the daily table with its extreme temperatures
    expressed in Fahrenheit.  (The mean is left out: on doubles, averaging
    the converted readings and converting their average differ by
    rounding.) *)
Definition in_fahrenheit (c f : DailyAggregate) : Prop :=
  Date f = Date c /\
  (Temp_Min f == convert Fahrenheit (Temp_Min c))%Q /\
  (Temp_Max f == convert Fahrenheit (Temp_Max c))%Q /\
  Humidity f = Humidity c /\
  Wind f = Wind c /\
  Desc f = Desc c.

(** ASCII lower-casing of a text, letter by letter. *)
Fixpoint lower (s : string) : string :=
  match s with
  | EmptyString => EmptyString
  | String c s' => String (to_lower c) (lower s')
  end.

Section FetchVocabulary.

Variable requests_get : request -> result response.

(** The conditions under which [get_city_data] gives up on a city: the
    geocoding status is not 200, or its decoded body is falsy (an empty
    list), or the weather status for the geocoded position is not 200. *)
Definition no_record (city : string) : Prop :=
  exists geo,
    requests_get (GeoDirect city) = inr geo /\
    (status_code geo <> 200 \/
     (status_code geo = 200 /\
      exists j,
        body geo = Some j /\
        (truthy j = false \/
         (truthy j = true /\
          exists first lat lon weather,
            getitem0 j = inr first /\
            getitem first "lat" = inr lat /\
            getitem first "lon" = inr lon /\
            requests_get (CurrentWeather lat lon) = inr weather /\
            status_code weather <> 200)))).

(** Where each field of a fetched record comes from. *)
Definition record_of (city : string) (d : CityRecord) : Prop :=
  City d = title city /\
  get_population requests_get city = inr (Population d) /\
  exists j first wd main weather weather0,
    requests_get (GeoDirect city)
    = inr {| status_code := 200; body := Some j |} /\
    truthy j = true /\
    getitem0 j = inr first /\
    getitem first "lat" = inr (Latitude d) /\
    getitem first "lon" = inr (Longitude d) /\
    requests_get (CurrentWeather (Latitude d) (Longitude d))
    = inr {| status_code := 200; body := Some wd |} /\
    getitem wd "main" = inr main /\
    getitem main "temp" = inr (City_Temperature d) /\
    getitem main "humidity" = inr (City_Humidity d) /\
    getitem wd "weather" = inr weather /\
    getitem0 weather = inr weather0 /\
    getitem weather0 "description" = inr (Conditions d) /\
    getitem weather0 "icon" = inr (Icon d).

End FetchVocabulary.

(** A stand-in for the date handling of the daylight block: time stamps are
    kept as the text the service sent. *)
Definition sample_to_datetime (v : json) : result string :=
  match v with
  | JStr s => ret s
  | _ => raise (TypeError "not a date")
  end.

Definition sample_local_hhmm (t : string) : result string := ret t.

Definition sample_historical_tab (city : string) : io unit :=
  historical_tab sample_history_oracle sample_to_datetime sample_local_hhmm
                 city.

(* ------------------------------------------------------------------ *)
(** ** IEEE doubles *)

(** A Python [float]: a binary64 value (53 bits of precision, exponents up
    to 1024), with the operations of IEEE 754 rounding to nearest even. *)
Definition double : Type := spec_float.

Definition double_of_Z (z : Z) : double := binary_normalize 53 1024 z 0 false.
Definition double_add : double -> double -> double := SFadd 53 1024.
Definition double_mul : double -> double -> double := SFmul 53 1024.
Definition double_div : double -> double -> double := SFdiv 53 1024.

(** The double denoted by the decimal literal [n / d], for literals whose
    nearest double is the rounded quotient (as 10.7 = 107 / 10). *)
Definition decimal (n d : Z) : double :=
  double_div (double_of_Z n) (double_of_Z d).

(** Lines 114-116 on a double: [(temp * 9/5) + 32]. *)
Definition convert_double (u : TempUnit) (temp : double) : double :=
  match u with
  | Fahrenheit =>
      double_add (double_div (double_mul temp (double_of_Z 9)) (double_of_Z 5))
                 (double_of_Z 32)
  | Celsius => temp
  end.








(** The most frequent description of a bucket, the earliest one on a tie. *)
Definition modal (l : list string) (m : string) : Prop :=
  In m l /\
  (forall y, (occurrences l y <= occurrences l m)%nat) /\
  (forall y, In y l -> occurrences l y = occurrences l m ->
             (first_index m l <= first_index y l)%nat).

(* ================================================================== *)
(** * Properties *)

(** ** Sanity checks of the embedding *)

Example title_clear_sky : title "clear sky" = "Clear Sky".
Proof. reflexivity. Qed.

Example title_mixed_case : title "lIGHT rain-showers" = "Light Rain-Showers".
Proof. reflexivity. Qed.

Example slice_to_short : slice_to 16 [1; 2; 3] = [1; 2; 3].
Proof. reflexivity. Qed.

Example slice_to_negative : slice_to (-1) [1; 2; 3] = [1; 2].
Proof. reflexivity. Qed.

Example value_counts_ties :
  value_counts ["rain"; "clear"; "clear"; "rain"; "mist"]
  = [("rain", 2%nat); ("clear", 2%nat); ("mist", 1%nat)].
Proof. reflexivity. Qed.

Example sorted_unique_dates : sorted_unique [3; 1; 3; 2; 1] = [1; 2; 3].
Proof. reflexivity. Qed.

Example sample_feed_table :
  map Date (emitted (daily_forecast
                       (forecast_data (fun _ => 10800) Celsius sample_feed)))
  = [0; 1; 2; 3].
Proof. reflexivity. Qed.

(** ** Unit conversion *)

Section NormalizerFacts.

Variable utcoffset : Z -> Z.

Lemma forecast_data_length u items :
  List.length (forecast_data utcoffset u items) = List.length items.
Proof. apply length_map. Qed.

Lemma forecast_data_nth u items i item :
  nth_error items i = Some item ->
  nth_error (forecast_data utcoffset u items) i
  = Some (forecast_row utcoffset u item).
Proof.
  intros H. unfold forecast_data. now rewrite nth_error_map, H.
Qed.

End NormalizerFacts.

(** C1. The conversion loop stores, for a Celsius reading [c], the value of
    [c * 9 / 5 + 32] when the unit is Fahrenheit and [c] itself when the
    unit is Celsius; this holds for the temperature of every row of
    [forecast_df], whose other numeric columns are copied from the item.
    No rounding step is applied: on doubles the stored value is the result
    of that expression as it stands, so 3.7 becomes 38.660000000000004 and
    not 38.66. *)
Theorem C1_unit_normalizer :
  (forall c : Q, convert Fahrenheit c = (c * 9 / 5 + 32)%Q) /\
  (forall c : Q, convert Celsius c = c) /\
  (forall utcoffset u items,
      map Temperature (forecast_data utcoffset u items)
      = map (fun item =>
               match u with
               | Fahrenheit => (temp item * 9 / 5 + 32)%Q
               | Celsius => temp item
               end) items
      /\ map Humidity_pct (forecast_data utcoffset u items) = map humidity items
      /\ map Wind_Speed (forecast_data utcoffset u items) = map speed items) /\
  (forall c : double,
      convert_double Fahrenheit c
      = double_add (double_div (double_mul c (double_of_Z 9)) (double_of_Z 5))
                   (double_of_Z 32)) /\
  (forall c : double, convert_double Celsius c = c) /\
  convert_double Fahrenheit (decimal 37 10)
  = S754_finite false 5440911299816981 (-47) /\
  convert_double Fahrenheit (decimal 37 10) <> decimal 3866 100.
Proof.
  split; [reflexivity | split; [reflexivity | split]].
  - intros utcoffset u items. unfold forecast_data.
    rewrite !map_map. repeat split.
  - split; [reflexivity|]. split; [reflexivity|].
    split; [vm_compute; reflexivity|]. vm_compute. discriminate.
Qed.

(** ** The error monad *)

Lemma mapM_In A B (f : A -> result B) l bs b :
  mapM f l = inr bs -> In b bs -> exists a, In a l /\ f a = inr b.
Proof.
  revert bs. induction l as [|a l IH]; simpl; intros bs H Hb.
  - injection H as <-. destruct Hb.
  - destruct (f a) as [e|b0] eqn:Ea; simpl in H; [discriminate|].
    destruct (mapM f l) as [e|bs0] eqn:El; simpl in H; [discriminate|].
    injection H as <-. destruct Hb as [<-|Hb].
    + exists a. auto.
    + destruct (IH bs0 eq_refl Hb) as (a' & Ha' & Hf). exists a'. auto.
Qed.

Lemma mapM_map A B C (f : A -> result B) (g : B -> C) (h : A -> C) l bs :
  (forall a b, f a = inr b -> g b = h a) ->
  mapM f l = inr bs -> map g bs = map h l.
Proof.
  intros Hgh. revert bs. induction l as [|a l IH]; simpl; intros bs H.
  - now injection H as <-.
  - destruct (f a) as [e|b0] eqn:Ea; simpl in H; [discriminate|].
    destruct (mapM f l) as [e|bs0] eqn:El; simpl in H; [discriminate|].
    injection H as <-. simpl. f_equal; auto.
Qed.

Lemma mapM_total A B (f : A -> result B) l :
  (forall a, In a l -> exists b, f a = inr b) ->
  exists bs, mapM f l = inr bs.
Proof.
  induction l as [|a l IH]; simpl; intros H.
  - now exists [].
  - destruct (H a (or_introl eq_refl)) as (b & ->).
    destruct IH as (bs & ->); [auto|]. simpl. now exists (b :: bs).
Qed.

(** ** [value_counts] *)

Lemma bump_count_in k k' t :
  count_in k' (bump k t)
  = (count_in k' t + if String.eqb k' k then 1 else 0)%nat.
Proof.
  induction t as [|[k0 c] t IH]; simpl.
  - reflexivity.
  - destruct (String.eqb k k0) eqn:E; simpl.
    + apply String.eqb_eq in E. subst k0.
      destruct (String.eqb k' k); lia.
    + destruct (String.eqb k' k0) eqn:E'; [|exact IH].
      apply String.eqb_eq in E'. subst k0.
      rewrite String.eqb_sym, E. lia.
Qed.

Lemma count_table_from_count_in k l acc :
  count_in k (fold_left (fun t x => bump x t) l acc)
  = (count_in k acc + occurrences l k)%nat.
Proof.
  revert acc. induction l as [|x l IH]; simpl; intros acc.
  - unfold occurrences. simpl. lia.
  - rewrite IH, bump_count_in. unfold occurrences. simpl.
    destruct (string_dec x k) as [->|Hne].
    + rewrite String.eqb_refl. lia.
    + destruct (String.eqb k x) eqn:E; [|lia].
      apply String.eqb_eq in E. congruence.
Qed.

Lemma bump_keys k t :
  (In k (keys t) /\ keys (bump k t) = keys t) \/
  (~ In k (keys t) /\ keys (bump k t) = (keys t ++ [k])%list).
Proof.
  induction t as [|[k0 c] t IH]; simpl.
  - right. split; [tauto|reflexivity].
  - destruct (String.eqb k k0) eqn:E; simpl.
    + apply String.eqb_eq in E. left. auto.
    + apply String.eqb_neq in E.
      destruct IH as [[Hin ->]|[Hnin ->]].
      * left. auto.
      * right. split; [|reflexivity]. intros [H|H]; [congruence|tauto].
Qed.

Lemma bump_NoDup k t : NoDup (keys t) -> NoDup (keys (bump k t)).
Proof.
  intros Hnd. destruct (bump_keys k t) as [[_ ->]|[Hnin ->]]; [assumption|].
  apply NoDup_app; [assumption|repeat constructor; tauto|].
  intros a Ha [<-|[]]. tauto.
Qed.

Lemma count_table_from_NoDup l acc :
  NoDup (keys acc) -> NoDup (keys (fold_left (fun t x => bump x t) l acc)).
Proof.
  revert acc. induction l as [|x l IH]; simpl; intros acc H; [assumption|].
  apply IH, bump_NoDup, H.
Qed.

Lemma count_table_from_prefix l acc :
  exists rest,
    keys (fold_left (fun t x => bump x t) l acc) = (keys acc ++ rest)%list.
Proof.
  revert acc. induction l as [|x l IH]; simpl; intros acc.
  - exists []. now rewrite app_nil_r.
  - destruct (IH (bump x acc)) as (rest & ->).
    destruct (bump_keys x acc) as [[_ ->]|[_ ->]].
    + now exists rest.
    + exists ([x] ++ rest)%list. now rewrite app_assoc.
Qed.

Lemma In_count_in k c t :
  NoDup (keys t) -> In (k, c) t -> count_in k t = c.
Proof.
  induction t as [|[k0 c0] t IH]; simpl; intros Hnd Hin; [tauto|].
  inversion Hnd as [|? ? Hnotin Hnd']; subst.
  destruct Hin as [Heq|Hin].
  - injection Heq as -> ->. now rewrite String.eqb_refl.
  - destruct (String.eqb k k0) eqn:E; [|auto].
    apply String.eqb_eq in E. subst k0. exfalso. apply Hnotin.
    change k with (fst (k, c)). now apply in_map.
Qed.

Lemma count_in_absent k t : ~ In k (keys t) -> count_in k t = 0%nat.
Proof.
  induction t as [|[k0 c0] t IH]; simpl; intros H; [reflexivity|].
  destruct (String.eqb k k0) eqn:E.
  - apply String.eqb_eq in E. subst k0. tauto.
  - apply IH. tauto.
Qed.

Lemma prefix_before A (xs rest k1 k2 : list A) m :
  (xs ++ rest = k1 ++ m :: k2)%list -> ~ In m xs ->
  exists rest', k1 = (xs ++ rest')%list.
Proof.
  revert k1. induction xs as [|a xs IH]; simpl; intros k1 H Hm.
  - now exists k1.
  - destruct k1 as [|b k1]; simpl in H; injection H as -> H.
    + tauto.
    + destruct (IH k1 H) as (rest' & ->); [tauto|]. now exists rest'.
Qed.

(** A key of the table that the accumulator did not hold was first met in
    the scanned list after the keys that precede it in the table. *)
Lemma count_table_from_first_occurrence l acc k1 m k2 :
  keys (fold_left (fun t x => bump x t) l acc) = (k1 ++ m :: k2)%list ->
  ~ In m (keys acc) ->
  exists pre post,
    l = (pre ++ m :: post)%list /\ ~ In m pre /\
    forall y, In y pre -> In y k1.
Proof.
  revert acc. induction l as [|x l IH]; simpl; intros acc Hk Hm.
  - exfalso. apply Hm. rewrite Hk. apply in_elt.
  - destruct (string_dec x m) as [->|Hne].
    + exists [], l. simpl. tauto.
    + assert (Hm' : ~ In m (keys (bump x acc))).
      { destruct (bump_keys x acc) as [[_ ->]|[_ ->]]; [assumption|].
        rewrite in_app_iff. simpl. intuition congruence. }
      destruct (IH _ Hk Hm') as (pre & post & -> & Hpre & Hk1).
      exists (x :: pre), post. simpl. split; [reflexivity|]. split.
      * intuition congruence.
      * intros y [<-|Hy]; [|auto].
        destruct (count_table_from_prefix (pre ++ m :: post) (bump x acc))
          as (rest & Hrest).
        rewrite Hk in Hrest. symmetry in Hrest.
        destruct (@prefix_before _ _ _ _ _ _ Hrest Hm') as (rest' & ->).
        apply in_or_app. left.
        destruct (bump_keys x acc) as [[Hin ->]|[_ ->]]; [assumption|].
        apply in_or_app. right. now left.
Qed.

Lemma insert_desc_not_nil e s : insert_desc e s <> [].
Proof. destruct s; simpl; [|destruct (_ <=? _)%nat]; discriminate. Qed.

Lemma sort_desc_nil t : sort_desc t = [] -> t = [].
Proof.
  destruct t as [|a t]; [reflexivity|]. simpl. intros H.
  now apply insert_desc_not_nil in H.
Qed.

(** The head of the sorted table is the first entry of the table that
    carries the largest count. *)
Lemma sort_desc_head t h s :
  sort_desc t = h :: s ->
  exists t1 t2,
    t = (t1 ++ h :: t2)%list /\
    (forall e, In e t1 -> (snd e < snd h)%nat) /\
    (forall e, In e t2 -> (snd e <= snd h)%nat).
Proof.
  revert h s. induction t as [|a t IH]; simpl; intros h s H; [discriminate|].
  destruct (sort_desc t) as [|b s'] eqn:E; simpl in H.
  - injection H as <- <-. apply sort_desc_nil in E. subst t.
    exists [], []. simpl. tauto.
  - destruct (IH b s' eq_refl) as (t1 & t2 & -> & H1 & H2).
    destruct (snd b <=? snd a)%nat eqn:Le.
    + apply Nat.leb_le in Le. injection H as <- <-.
      exists [], (t1 ++ b :: t2)%list. simpl. split; [reflexivity|].
      split; [tauto|]. intros e He. apply in_app_or in He.
      destruct He as [He|[<-|He]].
      * specialize (H1 e He). lia.
      * assumption.
      * specialize (H2 e He). lia.
    + apply Nat.leb_gt in Le. injection H as <- <-.
      exists (a :: t1), t2. simpl. split; [reflexivity|]. split; [|assumption].
      intros e [<-|He]; auto.
Qed.

Lemma count_table_NoDup l : NoDup (keys (count_table l)).
Proof. apply count_table_from_NoDup. constructor. Qed.

Lemma count_table_count_in l k : count_in k (count_table l) = occurrences l k.
Proof. unfold count_table. now rewrite count_table_from_count_in. Qed.

Lemma count_table_entry l k c :
  In (k, c) (count_table l) -> c = occurrences l k.
Proof.
  intros H. rewrite <- count_table_count_in. symmetry.
  apply In_count_in; [apply count_table_NoDup|assumption].
Qed.

Lemma first_index_app y pre rest :
  ~ In y pre ->
  first_index y (pre ++ rest) = (List.length pre + first_index y rest)%nat.
Proof.
  induction pre as [|x pre IH]; simpl; intros H; [reflexivity|].
  destruct (String.eqb x y) eqn:E.
  - apply String.eqb_eq in E. tauto.
  - rewrite IH; tauto.
Qed.

(** What [x.value_counts().index[0]] returns on a non-empty group. *)
Lemma mode_description_spec x l :
  exists m pre post,
    mode_description (x :: l) = inr m /\
    x :: l = (pre ++ m :: post)%list /\
    ~ In m pre /\
    (forall y, (occurrences (x :: l) y <= occurrences (x :: l) m)%nat) /\
    (forall y, In y pre ->
               (occurrences (x :: l) y < occurrences (x :: l) m)%nat).
Proof.
  set (b := x :: l). unfold mode_description, value_counts.
  destruct (sort_desc (count_table b)) as [|[m c] s] eqn:E.
  - apply sort_desc_nil in E.
    pose proof (count_table_count_in b x) as Hx. rewrite E in Hx.
    unfold occurrences, b in Hx. simpl in Hx.
    destruct (string_dec x x); [discriminate|congruence].
  - destruct (sort_desc_head _ E) as (t1 & t2 & Ht & Hlt & Hle).
    simpl in Hlt, Hle.
    assert (Hc : c = occurrences b m).
    { apply count_table_entry. rewrite Ht. apply in_elt. }
    assert (Hkeys : keys (count_table b) = (keys t1 ++ m :: keys t2)%list).
    { rewrite Ht. unfold keys. now rewrite map_app. }
    destruct (@count_table_from_first_occurrence b [] _ _ _ Hkeys)
      as (pre & post & Hb & Hpre & Hk1); [simpl; tauto|].
    exists m, pre, post. repeat split; try assumption.
    + intros y. destruct (in_dec string_dec y (keys (count_table b))) as [Hy|Hy].
      * apply in_map_iff in Hy. destruct Hy as ([y' cy] & Hfst & Hy).
        simpl in Hfst. subst y'.
        rewrite <- (count_table_entry _ _ _ Hy), <- Hc.
        rewrite Ht in Hy. apply in_app_or in Hy.
        destruct Hy as [Hy|[Hy|Hy]].
        -- specialize (Hlt _ Hy). simpl in Hlt. lia.
        -- injection Hy as _ ->. lia.
        -- specialize (Hle _ Hy). simpl in Hle. lia.
      * rewrite <- (count_table_count_in b y), count_in_absent by assumption.
        lia.
    + intros y Hy. apply Hk1 in Hy. apply in_map_iff in Hy.
      destruct Hy as ([y' cy] & Hfst & Hy). simpl in Hfst. subst y'.
      assert (Hcy : cy = occurrences b y).
      { apply count_table_entry. rewrite Ht. apply in_or_app. now left. }
      specialize (Hlt _ Hy). simpl in Hlt. lia.
Qed.


(** ** Series reductions *)

Lemma fold_min_lower xs x :
  (fold_left Qmin xs x <= x)%Q /\
  (forall y, In y xs -> fold_left Qmin xs x <= y)%Q.
Proof.
  revert x. induction xs as [|a xs IH]; simpl; intros x.
  - split; [apply Qle_refl|tauto].
  - destruct (IH (Qmin x a)) as [H0 H1]. split.
    + eapply Qle_trans; [exact H0|apply Q.le_min_l].
    + intros y [<-|Hy]; [|auto].
      eapply Qle_trans; [exact H0|apply Q.le_min_r].
Qed.

Lemma fold_max_upper xs x :
  (x <= fold_left Qmax xs x)%Q /\
  (forall y, In y xs -> y <= fold_left Qmax xs x)%Q.
Proof.
  revert x. induction xs as [|a xs IH]; simpl; intros x.
  - split; [apply Qle_refl|tauto].
  - destruct (IH (Qmax x a)) as [H0 H1]. split.
    + eapply Qle_trans; [apply Q.le_max_l|exact H0].
    + intros y [<-|Hy]; [|auto].
      eapply Qle_trans; [apply Q.le_max_r|exact H0].
Qed.

Lemma series_min_le l y : In y l -> (series_min l <= y)%Q.
Proof.
  destruct l as [|x xs]; simpl; [tauto|].
  destruct (fold_min_lower xs x) as [H0 H1]. intros [<-|Hy]; auto.
Qed.

Lemma series_max_ge l y : In y l -> (y <= series_max l)%Q.
Proof.
  destruct l as [|x xs]; simpl; [tauto|].
  destruct (fold_max_upper xs x) as [H0 H1]. intros [<-|Hy]; auto.
Qed.

(** The maximum of a series is one of its values. *)
Lemma fold_max_In xs x :
  fold_left Qmax xs x = x \/ In (fold_left Qmax xs x) xs.
Proof.
  revert x. induction xs as [|a xs IH]; simpl; intros x; [now left|].
  destruct (IH (Qmax x a)) as [H|H]; [|now right; right].
  rewrite H. unfold Qmax, GenericMinMax.gmax.
  destruct (x ?= a)%Q; auto.
Qed.

Lemma series_max_In x xs : In (series_max (x :: xs)) (x :: xs).
Proof.
  simpl. destruct (fold_max_In xs x) as [->|H]; auto.
Qed.

Lemma fold_min_In xs x :
  fold_left Qmin xs x = x \/ In (fold_left Qmin xs x) xs.
Proof.
  revert x. induction xs as [|a xs IH]; simpl; intros x; [now left|].
  destruct (IH (Qmin x a)) as [H|H]; [|now right; right].
  rewrite H. unfold Qmin, GenericMinMax.gmin.
  destruct (x ?= a)%Q; auto.
Qed.

Lemma series_min_In x xs : In (series_min (x :: xs)) (x :: xs).
Proof.
  simpl. destruct (fold_min_In xs x) as [->|H]; auto.
Qed.

Lemma count_Q l :
  (inject_Z (Z.of_nat (List.length (A:=Q) l)) == fold_right (fun _ n => n + 1) 0 l)%Q.
Proof.
  induction l as [|x l IH]; [reflexivity|].
  cbn [List.length fold_right]. rewrite Nat2Z.inj_succ, <- Z.add_1_r.
  rewrite inject_Z_plus, IH. reflexivity.
Qed.

Lemma series_sum_lower l m :
  (forall y, In y l -> m <= y)%Q ->
  (inject_Z (Z.of_nat (List.length l)) * m <= series_sum l)%Q.
Proof.
  rewrite count_Q.
  induction l as [|x l IH]; simpl; intros H.
  - lra.
  - assert (m <= x)%Q by auto.
    assert (fold_right (fun _ n => n + 1) 0 l * m <= series_sum l)%Q by auto.
    lra.
Qed.

Lemma series_sum_upper l m :
  (forall y, In y l -> y <= m)%Q ->
  (series_sum l <= inject_Z (Z.of_nat (List.length l)) * m)%Q.
Proof.
  rewrite count_Q.
  induction l as [|x l IH]; simpl; intros H.
  - lra.
  - assert (x <= m)%Q by auto.
    assert (series_sum l <= fold_right (fun _ n => n + 1) 0 l * m)%Q by auto.
    lra.
Qed.

Lemma count_positive (x : Q) xs :
  (0 < inject_Z (Z.of_nat (List.length (x :: xs))))%Q.
Proof.
  change 0%Q with (inject_Z 0). rewrite <- Zlt_Qlt. simpl List.length. lia.
Qed.


(** ** [groupby] *)

Lemma In_insert_unique x d ks :
  In x (insert_unique d ks) <-> x = d \/ In x ks.
Proof.
  induction ks as [|k ks IH]; simpl.
  - intuition congruence.
  - destruct (d <? k) eqn:Lt; simpl; [intuition congruence|].
    destruct (d =? k) eqn:Eq; simpl.
    + apply Z.eqb_eq in Eq. subst k. intuition congruence.
    + rewrite IH. intuition congruence.
Qed.

Lemma In_sorted_unique x l : In x (sorted_unique l) <-> In x l.
Proof.
  induction l as [|a l IH]; simpl; [tauto|].
  rewrite In_insert_unique, IH. intuition congruence.
Qed.

Lemma insert_unique_sorted d ks :
  StronglySorted Z.lt ks -> StronglySorted Z.lt (insert_unique d ks).
Proof.
  induction ks as [|k ks IH]; simpl; intros H.
  - repeat constructor.
  - apply StronglySorted_inv in H. destruct H as [Hs Hk].
    destruct (d <? k) eqn:Lt.
    + apply Z.ltb_lt in Lt. constructor.
      * now constructor.
      * constructor; [assumption|].
        rewrite Forall_forall in *. intros x Hx. specialize (Hk x Hx). lia.
    + destruct (d =? k) eqn:Eq.
      * now constructor.
      * apply Z.ltb_ge in Lt. apply Z.eqb_neq in Eq. constructor; [auto|].
        rewrite Forall_forall in *. intros x Hx.
        apply In_insert_unique in Hx. destruct Hx as [->|Hx]; [lia|auto].
Qed.

Lemma sorted_unique_sorted l : StronglySorted Z.lt (sorted_unique l).
Proof.
  induction l as [|a l IH]; simpl; [constructor|].
  now apply insert_unique_sorted.
Qed.

(** Two strictly ascending lists with the same members are equal. *)
Lemma strictly_sorted_ext l1 l2 :
  StronglySorted Z.lt l1 -> StronglySorted Z.lt l2 ->
  (forall x, In x l1 <-> In x l2) -> l1 = l2.
Proof.
  revert l2. induction l1 as [|a l1 IH]; intros l2 H1 H2 Hmem.
  - destruct l2 as [|b l2]; [reflexivity|].
    exfalso. apply (Hmem b). now left.
  - destruct l2 as [|b l2]; [exfalso; apply (Hmem a); now left|].
    apply StronglySorted_inv in H1, H2.
    destruct H1 as [S1 F1], H2 as [S2 F2].
    rewrite Forall_forall in F1, F2.
    assert (a = b).
    { destruct (proj1 (Hmem a) (or_introl eq_refl)) as [Hb|Hb]; [auto|].
      destruct (proj2 (Hmem b) (or_introl eq_refl)) as [Ha|Ha]; [auto|].
      specialize (F1 _ Ha). specialize (F2 _ Hb). lia. }
    subst b. f_equal. apply IH; try assumption.
    intros x. split; intros Hx.
    + destruct (proj1 (Hmem x) (or_intror Hx)) as [<-|Hx']; [|assumption].
      specialize (F1 _ Hx). lia.
    + destruct (proj2 (Hmem x) (or_intror Hx)) as [<-|Hx']; [|assumption].
      specialize (F2 _ Hx). lia.
Qed.

Lemma groupby_keys key df :
  map fst (groupby key df) = sorted_unique (map key df).
Proof.
  unfold groupby. rewrite map_map. simpl. apply map_id.
Qed.

Lemma groupby_bucket key df d b :
  In (d, b) (groupby key df) ->
  b = filter (fun r => key r =? d) df /\ exists r rs, b = r :: rs.
Proof.
  unfold groupby. intros H. apply in_map_iff in H.
  destruct H as (d' & Heq & Hd). injection Heq as -> <-.
  split; [reflexivity|].
  apply In_sorted_unique, in_map_iff in Hd. destruct Hd as (r & Hr & Hin).
  destruct (filter (fun r0 => key r0 =? d) df) as [|r0 rs] eqn:E.
  - exfalso. assert (Hf : In r (filter (fun r0 => key r0 =? d) df)).
    { apply filter_In. split; [assumption|]. now apply Z.eqb_eq. }
    now rewrite E in Hf.
  - now exists r0, rs.
Qed.

(** ** The daily table *)

Lemma aggregate_total d r rs :
  exists a, aggregate d (r :: rs) = inr a /\ Date a = d /\
            Temp_Avg a = series_mean (map Temperature (r :: rs)) /\
            Temp_Min a = series_min (map Temperature (r :: rs)) /\
            Temp_Max a = series_max (map Temperature (r :: rs)).
Proof.
  unfold aggregate.
  destruct (mode_description_spec (Description r) (map Description rs))
    as (m & _ & _ & Hm & _).
  change (map Description (r :: rs))
    with (Description r :: map Description rs).
  rewrite Hm. simpl. eexists. split; [reflexivity|]. simpl. auto.
Qed.

Lemma aggregate_Date d b a : aggregate d b = inr a -> Date a = d.
Proof.
  unfold aggregate. destruct (mode_description _); simpl; [discriminate|].
  intros H. injection H as <-. reflexivity.
Qed.

(** The full record computed for a non-empty group. *)
Lemma aggregate_fields d r rs :
  exists m,
    mode_description (map Description (r :: rs)) = inr m /\
    aggregate d (r :: rs)
    = inr {| Date := d;
             Temp_Avg := series_mean (map Temperature (r :: rs));
             Temp_Min := series_min (map Temperature (r :: rs));
             Temp_Max := series_max (map Temperature (r :: rs));
             Humidity := series_mean (map Humidity_pct (r :: rs));
             Wind := series_mean (map Wind_Speed (r :: rs));
             Desc := m |}.
Proof.
  destruct (mode_description_spec (Description r) (map Description rs))
    as (m & _ & _ & Hm & _).
  change (Description r :: map Description rs)
    with (map Description (r :: rs)) in Hm.
  exists m. split; [assumption|]. unfold aggregate. now rewrite Hm.
Qed.

(** On a frame with at least one row the daily table is computed, has one
    row per group key, and each row is the aggregate of the rows of the
    frame that carry its date. *)
Lemma daily_forecast_spec r df :
  exists aggs,
    daily_forecast (r :: df) = inr aggs /\
    map Date aggs = sorted_unique (map row_date (r :: df)) /\
    forall a, In a aggs ->
      exists r0 rs,
        filter (fun x => row_date x =? Date a) (r :: df) = r0 :: rs /\
        aggregate (Date a) (r0 :: rs) = inr a.
Proof.
  unfold daily_forecast. cbn [get_column bind ret].
  destruct (@mapM_total _ _ (fun g => aggregate (fst g) (snd g))
              (groupby row_date (r :: df))) as (aggs & Haggs).
  { intros [d b] Hin. apply groupby_bucket in Hin.
    destruct Hin as (_ & r0 & rs & ->). simpl.
    destruct (aggregate_total d r0 rs) as (a & Ha & _). now exists a. }
  exists aggs. split; [assumption|]. split.
  - rewrite <- groupby_keys.
    apply (@mapM_map _ _ _ (fun g => aggregate (fst g) (snd g)) Date fst);
      [|assumption].
    intros [d b] a. simpl. apply aggregate_Date.
  - intros a Ha. destruct (@mapM_In _ _ _ _ _ _ Haggs Ha) as ([d b] & Hin & Hagg).
    simpl in Hagg. pose proof (aggregate_Date _ _ Hagg) as Hd. subst d.
    apply groupby_bucket in Hin. destruct Hin as (Hb & r0 & rs & Hb').
    exists r0, rs. rewrite <- Hb, <- Hb'. auto.
Qed.

(** C4. The description of a DailyAggregate is the modal description of
    its bucket: it is one of the bucket's descriptions, no description
    occurs more often, and every description that occurs as often has its
    first occurrence no earlier.  This holds for the aggregate of every
    non-empty bucket and for every row of the daily table, where the bucket
    is the rows of the frame with the row's date; a bucket with the
    descriptions clear, clear, rain, rain gets clear. *)
Theorem C4_modal_description :
  (forall x l,
      exists m, mode_description (x :: l) = inr m /\ modal (x :: l) m) /\
  (forall d r rs,
      exists a,
        aggregate d (r :: rs) = inr a /\
        mode_description (map Description (r :: rs)) = inr (Desc a) /\
        modal (map Description (r :: rs)) (Desc a)) /\
  (forall r df,
      exists aggs,
        daily_forecast (r :: df) = inr aggs /\
        Forall (fun a =>
                  modal (map Description
                             (filter (fun x => row_date x =? Date a) (r :: df)))
                        (Desc a)) aggs) /\
  (forall d bucket,
      map Description bucket = ["clear"; "clear"; "rain"; "rain"] ->
      exists a, aggregate d bucket = inr a /\ Desc a = "clear") /\
  mode_description ["clear"; "clear"; "rain"; "rain"] = inr "clear".
Proof.
  assert (Hmode : forall x l,
             exists m, mode_description (x :: l) = inr m /\ modal (x :: l) m).
  { intros x l.
    destruct (mode_description_spec x l)
      as (m & pre & post & Hm & Hsplit & Hpre & Hmax & Hbefore).
    exists m. split; [assumption|]. unfold modal.
    split; [rewrite Hsplit; apply in_elt|]. split; [assumption|].
    intros y _ Hy. rewrite Hsplit at 1 2.
    assert (Hypre : ~ In y pre).
    { intros Hin. specialize (Hbefore y Hin). lia. }
    rewrite !first_index_app by assumption.
    simpl. rewrite String.eqb_refl. lia. }
  assert (Hagg : forall d r rs,
             exists a,
               aggregate d (r :: rs) = inr a /\
               mode_description (map Description (r :: rs)) = inr (Desc a) /\
               modal (map Description (r :: rs)) (Desc a)).
  { intros d r rs. destruct (aggregate_fields d r rs) as (m & Hm & Ha).
    eexists. split; [exact Ha|]. cbn [Desc]. split; [assumption|].
    destruct (Hmode (Description r) (map Description rs)) as (m' & Hm' & Hmodal).
    change (Description r :: map Description rs)
      with (map Description (r :: rs)) in Hm', Hmodal.
    rewrite Hm in Hm'. injection Hm' as <-. exact Hmodal. }
  split; [exact Hmode|]. split; [exact Hagg|]. split; [|split].
  - intros r df. destruct (daily_forecast_spec r df) as (aggs & Hd & _ & Hb).
    exists aggs. split; [assumption|]. apply Forall_forall. intros a Ha.
    destruct (Hb a Ha) as (r0 & rs & Hfilter & Hrow).
    destruct (Hagg (Date a) r0 rs) as (a' & Ha' & _ & Hmodal).
    rewrite Hrow in Ha'. injection Ha' as <-. now rewrite Hfilter.
  - intros d [|r rs] Hdesc; [discriminate|].
    destruct (Hagg d r rs) as (a & Ha & Hm & _).
    exists a. split; [assumption|].
    rewrite Hdesc in Hm.
    assert (Hclear : mode_description ["clear"; "clear"; "rain"; "rain"]
                     = inr "clear") by reflexivity.
    congruence.
  - reflexivity.
Qed.



(** ** Truncation and bucketing *)

Lemma forecast_list_firstn D (feed : list ForecastItem) :
  0 <= D -> forecast_list D feed = firstn (Z.to_nat (D * 8)) feed.
Proof.
  intros HD. unfold forecast_list, slice_to.
  destruct (D * 8 <? 0) eqn:E; [|reflexivity].
  apply Z.ltb_lt in E. lia.
Qed.

Lemma forecast_data_dates utcoffset u items :
  map row_date (forecast_data utcoffset u items)
  = map (item_date utcoffset) items.
Proof. unfold forecast_data. rewrite map_map. reflexivity. Qed.

Lemma Forall_map_const A (f : A -> Z) d l x :
  Forall (fun p => f p = d) l -> In x (map f l) -> x = d.
Proof.
  intros H Hx. apply in_map_iff in Hx. destruct Hx as (p & <- & Hp).
  rewrite Forall_forall in H. auto.
Qed.

(** C3. For a day count [D >= 0] the aggregation works on the first
    [D * 8] items of the feed (all of them when there are fewer), and the
    daily table has one row per distinct calendar date of those items, in
    strictly ascending date order, each row being the aggregate of the rows
    of that date; the table is computed whenever at least one item is left.
    Twenty-four items, eight on each of three consecutive days, give with
    [D = 2] exactly two rows, for the first two days. *)
Theorem C3_truncation_and_buckets :
  (forall utcoffset u D feed,
      0 <= D ->
      let pts := firstn (Z.to_nat (D * 8)) feed in
      let daily :=
        daily_forecast (forecast_data utcoffset u (forecast_list D feed)) in
      forecast_list D feed = pts /\
      List.length pts = Nat.min (Z.to_nat (D * 8)) (List.length feed) /\
      (pts <> [] -> daily = inr (emitted daily)) /\
      StronglySorted Z.lt (map Date (emitted daily)) /\
      (forall d, In d (map Date (emitted daily)) <->
                 exists p, In p pts /\ item_date utcoffset p = d) /\
      (forall a, In a (emitted daily) ->
         exists r rs,
           filter (fun x => row_date x =? Date a)
                  (forecast_data utcoffset u pts) = r :: rs /\
           aggregate (Date a) (r :: rs) = inr a)) /\
  (forall utcoffset u d day1 day2 day3,
      List.length day1 = 8%nat ->
      List.length day2 = 8%nat ->
      List.length day3 = 8%nat ->
      Forall (fun p => item_date utcoffset p = d) day1 ->
      Forall (fun p => item_date utcoffset p = d + 1) day2 ->
      Forall (fun p => item_date utcoffset p = d + 2) day3 ->
      exists aggs,
        daily_forecast
          (forecast_data utcoffset u
             (forecast_list 2 (day1 ++ day2 ++ day3)%list)) = inr aggs /\
        map Date aggs = [d; d + 1] /\
        List.length aggs = 2%nat).
Proof.
  split.
  - intros utcoffset u D feed HD pts daily. subst daily.
    rewrite forecast_list_firstn by assumption. fold pts.
    split; [reflexivity|]. split; [apply length_firstn|].
    destruct pts as [|p ps] eqn:Epts.
    + simpl. split; [congruence|]. split; [constructor|].
      split; [|tauto]. intros d. split; [tauto|]. now intros (q & [] & _).
    + change (forecast_data utcoffset u (p :: ps))
        with (forecast_row utcoffset u p :: forecast_data utcoffset u ps).
      destruct (daily_forecast_spec (forecast_row utcoffset u p)
                  (forecast_data utcoffset u ps)) as (aggs & -> & Hdates & Hb).
      change (forecast_row utcoffset u p :: forecast_data utcoffset u ps)
        with (forecast_data utcoffset u (p :: ps)) in *.
      simpl emitted. split; [reflexivity|].
      rewrite Hdates, forecast_data_dates.
      split; [apply sorted_unique_sorted|]. split; [|exact Hb].
      intros d. rewrite In_sorted_unique, in_map_iff.
      split; intros (q & H1 & H2); exists q; auto.
  - intros utcoffset u d day1 day2 day3 L1 L2 L3 F1 F2 F3.
    rewrite forecast_list_firstn by lia.
    change (Z.to_nat (2 * 8)) with 16%nat.
    rewrite firstn_app, L1, (firstn_all2 day1) by lia.
    rewrite firstn_app, L2, (firstn_all2 day2) by lia.
    simpl firstn. rewrite app_nil_r.
    destruct day1 as [|p1 ps1]; [discriminate|].
    destruct day2 as [|p2 ps2]; [discriminate|].
    change (forecast_data utcoffset u ((p1 :: ps1) ++ p2 :: ps2)%list)
      with (forecast_row utcoffset u p1
            :: forecast_data utcoffset u (ps1 ++ p2 :: ps2)%list).
    destruct (daily_forecast_spec (forecast_row utcoffset u p1)
                (forecast_data utcoffset u (ps1 ++ p2 :: ps2)%list))
      as (aggs & -> & Hdates & _).
    change (forecast_row utcoffset u p1
            :: forecast_data utcoffset u (ps1 ++ p2 :: ps2)%list)
      with (forecast_data utcoffset u ((p1 :: ps1) ++ p2 :: ps2)%list)
      in Hdates.
    rewrite forecast_data_dates, map_app in Hdates.
    assert (Hd : map Date aggs = [d; d + 1]).
    { rewrite Hdates. apply strictly_sorted_ext.
      - apply sorted_unique_sorted.
      - repeat constructor. lia.
      - intros x. rewrite In_sorted_unique, in_app_iff. split.
        + intros [Hx|Hx].
          * apply (@Forall_map_const _ _ _ _ _ F1) in Hx. subst x. now left.
          * apply (@Forall_map_const _ _ _ _ _ F2) in Hx. subst x. right. now left.
        + inversion F1 as [|? ? Hp1 _]; inversion F2 as [|? ? Hp2 _]; subst.
          intros [<-|[<-|[]]].
          * left. simpl. now left.
          * right. simpl. now left. }
    exists aggs. split; [reflexivity|]. split; [assumption|].
    rewrite <- (length_map Date), Hd. reflexivity.
Qed.

(** The three sample days lie on the UTC dates 0, 1 and 2. *)
Lemma sample_days_dates :
  Forall (fun p => item_date (fun _ => 0) p = 0) (sample_day 0) /\
  Forall (fun p => item_date (fun _ => 0) p = 0 + 1) (sample_day 86400) /\
  Forall (fun p => item_date (fun _ => 0) p = 0 + 2) (sample_day 172800).
Proof. repeat split; repeat constructor. Qed.

Lemma C3_witness :
  0 <= 2 /\
  forecast_list 2 sample_feed = firstn (Z.to_nat (2 * 8)) sample_feed /\
  exists aggs,
    daily_forecast
      (forecast_data (fun _ => 0) Celsius (forecast_list 2 sample_feed))
    = inr aggs /\
    map Date aggs = [0; 0 + 1] /\ List.length aggs = 2%nat.
Proof.
  split; [lia|]. split.
  - pose proof (proj1 C3_truncation_and_buckets (fun _ => 0) Celsius 2
                  sample_feed) as H.
    cbv zeta in H. exact (proj1 (H ltac:(lia))).
  - exact (proj2 C3_truncation_and_buckets (fun _ => 0) Celsius 0
             (sample_day 0) (sample_day 86400) (sample_day 172800)
             eq_refl eq_refl eq_refl
             (proj1 sample_days_dates)
             (proj1 (proj2 sample_days_dates))
             (proj2 (proj2 sample_days_dates))).
Defined.

(** ** Alerts *)

Lemma Qgtb_lt x y : Qgtb x y = true <-> (y < x)%Q.
Proof.
  unfold Qgtb. rewrite negb_true_iff. split.
  - intros H. apply Qnot_le_lt. intros Hle.
    apply Qle_bool_iff in Hle. congruence.
  - intros H. destruct (Qle_bool x y) eqn:E; [|reflexivity].
    apply Qle_bool_iff in E. exfalso. now apply (Qlt_not_le y x).
Qed.

(** The maximum of a non-empty series exceeds a bound exactly when one of
    its values does. *)
Lemma series_max_exceeds x xs bound :
  Qgtb (series_max (x :: xs)) bound = true <->
  Exists (fun v => (bound < v)%Q) (x :: xs).
Proof.
  rewrite Qgtb_lt, Exists_exists. split.
  - intros H. exists (series_max (x :: xs)). split; [apply series_max_In|exact H].
  - intros (v & Hin & Hv). eapply Qlt_le_trans; [exact Hv|].
    now apply series_max_ge.
Qed.

(** The two checks of lines 142-146 on a frame with at least one row. *)
Lemma alerts_nonempty u r df :
  alerts u (r :: df)
  = inr ((if Qgtb (series_max (map Wind_Speed (r :: df))) 10
          then [HighWind] else [])
         ++ (if Qgtb (series_max (map Temperature (r :: df)))
                     (inject_Z (heat_threshold u))
             then [ExtremeHeat (heat_threshold u)] else []))%list.
Proof.
  unfold alerts. cbn [get_column bind ret].
  destruct (Qgtb (series_max (map Temperature (r :: df))) _);
    [reflexivity|now rewrite app_nil_r].
Qed.

Lemma Exists_map A B (f : A -> B) (P : B -> Prop) l :
  Exists P (map f l) <-> Exists (fun a => P (f a)) l.
Proof.
  rewrite !Exists_exists. split.
  - intros (b & Hb & HP). apply in_map_iff in Hb.
    destruct Hb as (a & <- & Ha). eauto.
  - intros (a & Ha & HP). exists (f a). split; [now apply in_map|exact HP].
Qed.

Lemma existsb_Exists_gt (f : Row -> Q) bound df :
  existsb (fun r => Qgtb (f r) bound) df = true <->
  Exists (fun r => (bound < f r)%Q) df.
Proof.
  rewrite existsb_exists, Exists_exists.
  split; intros (x & Hx & H); exists x; (split; [assumption|]);
    now apply Qgtb_lt.
Qed.

(** [df[col].max() > bound] holds exactly when some row exceeds the bound. *)
Lemma column_max_exceeds (f : Row -> Q) r df bound :
  Qgtb (series_max (map f (r :: df))) bound
  = existsb (fun x => Qgtb (f x) bound) (r :: df).
Proof.
  apply eq_true_iff_eq.
  change (map f (r :: df)) with (f r :: map f df).
  rewrite series_max_exceeds, existsb_Exists_gt.
  change (f r :: map f df) with (map f (r :: df)).
  apply Exists_map.
Qed.

Lemma wind_alerts_count u df :
  wind_alerts (alerts u df)
  = if existsb (fun r => Qgtb (Wind_Speed r) 10) df then 1%nat else 0%nat.
Proof.
  destruct df as [|r df]; [reflexivity|].
  rewrite alerts_nonempty, !column_max_exceeds. unfold wind_alerts.
  destruct (existsb _ (r :: df)); destruct (existsb _ (r :: df)); reflexivity.
Qed.

Lemma heat_alerts_count u df :
  heat_alerts (alerts u df)
  = if existsb (fun r => Qgtb (Temperature r) (inject_Z (heat_threshold u))) df
    then 1%nat else 0%nat.
Proof.
  destruct df as [|r df]; [reflexivity|].
  rewrite alerts_nonempty, !column_max_exceeds. unfold heat_alerts.
  destruct (existsb _ (r :: df)); destruct (existsb _ (r :: df)); reflexivity.
Qed.

(** C6. Exactly one wind alert is emitted when some row of the frame has a
    wind speed strictly above 10, and none otherwise; the alert check itself
    runs to completion on every frame with at least one row.  Wind speeds
    3, 5, 12 give one wind alert and 3, 5, 9 give none. *)
Theorem C6_wind_alert :
  (forall u df,
      (wind_alerts (alerts u df) = 1%nat <->
       Exists (fun r => (10 < Wind_Speed r)%Q) df) /\
      (wind_alerts (alerts u df) = 0%nat <->
       ~ Exists (fun r => (10 < Wind_Speed r)%Q) df)) /\
  (forall u r df, exists al, alerts u (r :: df) = inr al) /\
  (forall utcoffset u,
      wind_alerts
        (alerts u (forecast_data utcoffset u
                     [sample_item 0 20 3 "clear sky";
                      sample_item 10800 20 5 "clear sky";
                      sample_item 21600 20 12 "clear sky"])) = 1%nat) /\
  (forall utcoffset u,
      wind_alerts
        (alerts u (forecast_data utcoffset u
                     [sample_item 0 20 3 "clear sky";
                      sample_item 10800 20 5 "clear sky";
                      sample_item 21600 20 9 "clear sky"])) = 0%nat).
Proof.
  split; [|split; [|split]].
  - intros u df. rewrite wind_alerts_count.
    rewrite <- (existsb_Exists_gt Wind_Speed 10 df).
    destruct (existsb _ df); split; split; congruence.
  - intros u r df. rewrite alerts_nonempty. eauto.
  - intros utcoffset u. rewrite wind_alerts_count. reflexivity.
  - intros utcoffset u. rewrite wind_alerts_count. reflexivity.
Qed.

(** C7. Exactly one heat alert is emitted when some row's temperature, in
    the active unit, is strictly above the threshold of that unit (35 for
    Celsius, 95 for Fahrenheit), and none otherwise; the alert names that
    threshold.  A reading of 36 degrees Celsius fires under Celsius, its
    conversion 96.8 fires under Fahrenheit, and 34 degrees Celsius does not
    fire under Celsius. *)
Theorem C7_heat_alert :
  (forall u df,
      (heat_alerts (alerts u df) = 1%nat <->
       Exists (fun r => (inject_Z (heat_threshold u) < Temperature r)%Q) df) /\
      (heat_alerts (alerts u df) = 0%nat <->
       ~ Exists (fun r => (inject_Z (heat_threshold u) < Temperature r)%Q) df) /\
      Forall (fun a => is_heat a = true -> a = ExtremeHeat (heat_threshold u))
             (emitted (alerts u df))) /\
  heat_threshold Celsius = 35 /\
  heat_threshold Fahrenheit = 95 /\
  (forall utcoffset,
      heat_alerts
        (alerts Celsius
           (forecast_data utcoffset Celsius [sample_item 0 36 3 "clear sky"]))
      = 1%nat) /\
  (convert Fahrenheit 36 == 968 # 10)%Q /\
  (forall utcoffset,
      heat_alerts
        (alerts Fahrenheit
           (forecast_data utcoffset Fahrenheit [sample_item 0 36 3 "clear sky"]))
      = 1%nat) /\
  (forall utcoffset,
      heat_alerts
        (alerts Celsius
           (forecast_data utcoffset Celsius [sample_item 0 34 3 "clear sky"]))
      = 0%nat).
Proof.
  split; [|repeat split; intros; rewrite heat_alerts_count; reflexivity].
  intros u df. rewrite heat_alerts_count.
  rewrite <- (existsb_Exists_gt Temperature (inject_Z (heat_threshold u)) df).
  destruct (existsb _ df); (split; [split; congruence|]);
    (split; [split; congruence|]).
  - destruct df as [|r df]; [constructor|]. rewrite alerts_nonempty.
    cbn [emitted]. apply Forall_app. split.
    + destruct (Qgtb _ 10); repeat constructor. discriminate.
    + destruct (Qgtb _ (inject_Z _)); repeat constructor.
  - destruct df as [|r df]; [constructor|]. rewrite alerts_nonempty.
    cbn [emitted]. apply Forall_app. split.
    + destruct (Qgtb _ 10); repeat constructor. discriminate.
    + destruct (Qgtb _ (inject_Z _)); repeat constructor.
Qed.

(** ** The empty feed *)

(** C5 (the script departs from the claim).  With an empty feed the frame
    has no columns: the first column access of the alert block raises
    [KeyError], so the pass ends there and no daily table is produced; the
    aggregation block on its own fails the same way on its first access. *)
Theorem C5_empty_feed_raises :
  forall utcoffset u D,
    forecast_data utcoffset u (forecast_list D []) = [] /\
    alerts u [] = inl (KeyError "Wind Speed (m/s)") /\
    daily_forecast [] = inl (KeyError "Datetime") /\
    render_forecast utcoffset u D [] = inl (KeyError "Wind Speed (m/s)").
Proof.
  intros utcoffset u D.
  assert (H : forecast_list D (@nil ForecastItem) = []).
  { unfold forecast_list, slice_to. destruct (D * 8 <? 0); apply firstn_nil. }
  unfold render_forecast. rewrite H. repeat split.
Qed.

(** On a feed that leaves at least one item the whole pass completes. *)
Lemma render_forecast_nonempty utcoffset u D feed p ps :
  forecast_list D feed = p :: ps ->
  exists al daily,
    render_forecast utcoffset u D feed = inr (al, daily) /\
    alerts u (forecast_data utcoffset u (p :: ps)) = inr al /\
    daily_forecast (forecast_data utcoffset u (p :: ps)) = inr daily.
Proof.
  intros H. unfold render_forecast. rewrite H.
  change (forecast_data utcoffset u (p :: ps))
    with (forecast_row utcoffset u p :: forecast_data utcoffset u ps).
  rewrite alerts_nonempty.
  destruct (daily_forecast_spec (forecast_row utcoffset u p)
              (forecast_data utcoffset u ps)) as (daily & Hd & _).
  rewrite Hd. simpl. eauto.
Qed.

(** ** City comparison *)

Section ComparisonFacts.

Variable requests_get : request -> result response.

(** A geocoding answer with a status other than 200 makes the fetch
    return [None]. *)
Lemma get_city_data_geo_status city resp :
  requests_get (GeoDirect city) = inr resp ->
  status_code resp <> 200 ->
  get_city_data requests_get city = inr None.
Proof.
  intros Hr Hs. unfold get_city_data. rewrite Hr. cbn [bind].
  apply Z.eqb_neq in Hs. rewrite Hs. reflexivity.
Qed.

(** A geocoding miss (status 200, empty list) makes it return [None]. *)
Lemma get_city_data_geo_miss city :
  requests_get (GeoDirect city)
  = inr {| status_code := 200; body := Some (JArr []) |} ->
  get_city_data requests_get city = inr None.
Proof. intros Hr. unfold get_city_data. rewrite Hr. reflexivity. Qed.

(** A weather answer with a status other than 200 makes it return
    [None]. *)
Lemma get_city_data_weather_status city first rest lat lon resp :
  requests_get (GeoDirect city)
  = inr {| status_code := 200; body := Some (JArr (first :: rest)) |} ->
  getitem first "lat" = inr lat ->
  getitem first "lon" = inr lon ->
  requests_get (CurrentWeather lat lon) = inr resp ->
  status_code resp <> 200 ->
  get_city_data requests_get city = inr None.
Proof.
  intros Hr Hlat Hlon Hw Hs. unfold get_city_data. rewrite Hr.
  cbn [bind status_code Z.eqb Pos.eqb negb json_of body ret truthy getitem0].
  rewrite Hlat, Hlon. cbn [bind]. rewrite Hw. cbn [bind].
  apply Z.eqb_neq in Hs. rewrite Hs. reflexivity.
Qed.

(** When either fetch returned [None] and none raised, the branch reports
    the single failure message. *)
Lemma compare_cities_incomplete city1 city2 data1 data2 :
  get_city_data requests_get city1 = inr data1 ->
  get_city_data requests_get city2 = inr data2 ->
  data1 = None \/ data2 = None ->
  compare_cities requests_get city1 city2
  = inr (Incomplete incomplete_message).
Proof.
  intros H1 H2 Hnone. unfold compare_cities. rewrite H1, H2. cbn [bind].
  destruct Hnone as [-> | ->]; [reflexivity|]. now destruct data1.
Qed.

(** A comparison set is only ever built from two fetched records. *)
Lemma compare_cities_both_records city1 city2 cs :
  compare_cities requests_get city1 city2 = inr (Compared cs) ->
  get_city_data requests_get city1 = inr (Some (first_city cs)) /\
  get_city_data requests_get city2 = inr (Some (second_city cs)).
Proof.
  unfold compare_cities.
  destruct (get_city_data requests_get city1) as [e|[d1|]];
    cbn [bind]; try discriminate;
    destruct (get_city_data requests_get city2) as [e|[d2|]];
    cbn [bind]; try discriminate.
  unfold compose.
  destruct (py_add (Latitude d1) (Latitude d2)) as [e|s1];
    cbn [bind]; [discriminate|].
  destruct (py_half s1) as [e|m1]; cbn [bind]; [discriminate|].
  destruct (py_add (Longitude d1) (Longitude d2)) as [e|s2];
    cbn [bind]; [discriminate|].
  destruct (py_half s2) as [e|m2]; cbn [bind]; [discriminate|].
  intros H. injection H as <-. auto.
Qed.

End ComparisonFacts.

(** C8 (the script departs from the claim).  The first city is fetched;
    the weather answer for the second has status 200 but lacks the [main]
    field.  [get_city_data] then raises [KeyError] instead of returning
    [None], and the comparison branch ends with that exception: it neither
    reports the aggregate failure nor builds a comparison set. *)
Theorem C8_malformed_payload_escapes :
  get_city_data one_sided_oracle "Johannesburg"
  = inr (Some johannesburg_record) /\
  get_city_data one_sided_oracle "Cape Town" = inl (KeyError "main") /\
  compare_cities one_sided_oracle "Johannesburg" "Cape Town"
  = inl (KeyError "main") /\
  compare_cities one_sided_oracle "Johannesburg" "Cape Town"
  <> inr (Incomplete incomplete_message).
Proof. repeat split. discriminate. Qed.

(** The same pair with a geocoding miss for the second city does report
    the failure. *)
Example compare_cities_miss :
  compare_cities sample_oracle "Johannesburg" "Atlantis"
  = inr (Incomplete incomplete_message).
Proof. reflexivity. Qed.

(** C9. For two fetched records whose coordinates are numbers, the centre
    computed by the comparison branch is the componentwise average:
    latitude (lat1 + lat2) / 2 and longitude (lon1 + lon2) / 2. *)
Theorem C9_midpoint :
  forall requests_get city1 city2 data1 data2 lat1 lon1 lat2 lon2,
    get_city_data requests_get city1 = inr (Some data1) ->
    get_city_data requests_get city2 = inr (Some data2) ->
    Latitude data1 = JNum lat1 -> Longitude data1 = JNum lon1 ->
    Latitude data2 = JNum lat2 -> Longitude data2 = JNum lon2 ->
    compare_cities requests_get city1 city2
    = inr (Compared {| first_city := data1;
                       second_city := data2;
                       avg_lat := JNum ((lat1 + lat2) / 2)%Q;
                       avg_lon := JNum ((lon1 + lon2) / 2)%Q |}).
Proof.
  intros requests_get city1 city2 data1 data2 lat1 lon1 lat2 lon2
         H1 H2 Hlat1 Hlon1 Hlat2 Hlon2.
  unfold compare_cities, compose. rewrite H1, H2. cbn [bind].
  rewrite Hlat1, Hlon1, Hlat2, Hlon2. reflexivity.
Qed.

Lemma C9_witness :
  compare_cities sample_oracle "Johannesburg" "Cape Town"
  = inr (Compared
           {| first_city := johannesburg_record;
              second_city := cape_town_record;
              avg_lat := JNum (((-262 # 10) + (-3393 # 100)) / 2)%Q;
              avg_lon := JNum (((2804 # 100) + (1842 # 100)) / 2)%Q |}).
Proof.
  apply (@C9_midpoint sample_oracle "Johannesburg" "Cape Town"
           johannesburg_record cape_town_record); reflexivity.
Defined.

(** ** Geocoder *)

(** The claim as worded fails: a status-200 answer whose first result has
    null [lat] and [lon] makes the geocoder return [None] three times,
    neither coordinates nor an error. *)
Lemma C10_counterexample :
  get_city_coordinates null_coordinates_oracle "Nowhere"
  = (JNull, JNull, JNull) /\
  ~ geocoder_shape (get_city_coordinates null_coordinates_oracle "Nowhere").
Proof.
  split; [reflexivity|]. simpl.
  intros [(H & _)|(_ & _ & H)]; now apply H.
Qed.

(** C10 (amended). The geocoder returns either the [lat] and [lon] values
    of the first result of a status-200, non-empty list answer together with
    a [None] error, or [(None, None)] together with an error message; an
    error never comes with a coordinate, and the two-shape reading holds
    whenever the two values of the answer are not null. *)
Theorem C10_geocoder_shapes :
  forall requests_get city_name,
    let '(lat, lon, err) := get_city_coordinates requests_get city_name in
    ((err = JNull /\
      exists first rest,
        requests_get (GeoDirect city_name)
        = inr {| status_code := 200; body := Some (JArr (first :: rest)) |} /\
        getitem first "lat" = inr lat /\
        getitem first "lon" = inr lon)
     \/
     (lat = JNull /\ lon = JNull /\ exists msg, err = JStr msg)) /\
    (lat = JNull \/ lon = JNull \/
     geocoder_shape (get_city_coordinates requests_get city_name)).
Proof.
  intros requests_get city_name.
  assert (Hshape : forall lat lon err,
             get_city_coordinates requests_get city_name = (lat, lon, err) ->
             (err = JNull /\
              exists first rest,
                requests_get (GeoDirect city_name)
                = inr {| status_code := 200;
                         body := Some (JArr (first :: rest)) |} /\
                getitem first "lat" = inr lat /\
                getitem first "lon" = inr lon)
             \/ (lat = JNull /\ lon = JNull /\ exists msg, err = JStr msg)).
  { intros lat lon err. unfold get_city_coordinates.
    destruct (requests_get (GeoDirect city_name)) as [e|[status payload]];
      cbn [bind status_code].
    { intros H. injection H as <- <- <-. right. eauto. }
    destruct (status =? 200) eqn:Es.
    2:{ intros H. injection H as <- <- <-. right. eauto. }
    apply Z.eqb_eq in Es. subst status.
    destruct payload as [data|]; cbn [json_of body bind ret raise].
    2:{ intros H. injection H as <- <- <-. right. eauto. }
    destruct data as [| b | q | s | items | fields];
      cbn [isinstance_list bind ret];
      try (intros H; injection H as <- <- <-; right; eauto).
    destruct items as [|first rest].
    { cbn. intros H. injection H as <- <- <-. right. eauto. }
    cbn [len bind ret List.length].
    replace (0 <? Z.of_nat (S (List.length rest))) with true
      by (symmetry; apply Z.ltb_lt; lia).
    cbn [getitem0 bind ret].
    destruct (getitem first "lat") as [e|vlat] eqn:Elat; cbn [bind].
    { intros H. injection H as <- <- <-. right. eauto. }
    destruct (getitem first "lon") as [e|vlon] eqn:Elon; cbn [bind ret].
    { intros H. injection H as <- <- <-. right. eauto. }
    intros H. injection H as <- <- <-. left. split; [reflexivity|].
    exists first, rest. auto. }
  destruct (get_city_coordinates requests_get city_name)
    as [[lat lon] err] eqn:E.
  split; [now apply Hshape|].
  destruct (Hshape lat lon err eq_refl) as [(-> & _)|(-> & _)]; [|now left].
  destruct lat; try (now left); destruct lon; try (now right; left);
    right; right; left; repeat split; discriminate.
Qed.

(* ================================================================== *)
(** * Further properties of the script *)

(** ** The two cached lookups *)

Lemma append_not_empty (prefix s : string) :
  prefix <> "" -> (prefix ++ s)%string <> "".
Proof. destruct prefix; [congruence|discriminate]. Qed.

(** The forecast fetcher never raises: it returns the decoded body of a
    status-200 answer with no error, or no payload with a non-empty error
    message; an error never comes with a payload. *)
Theorem get_weather_forecast_shapes :
  forall forecast_get city,
    let '(payload, err) := get_weather_forecast forecast_get city in
    (err = JNull /\
     exists response,
       forecast_get city = inr response /\
       status_code response = 200 /\
       body response = Some payload)
    \/
    (payload = JNull /\ exists msg, err = JStr msg /\ msg <> "").
Proof.
  intros forecast_get city. unfold get_weather_forecast.
  destruct (forecast_get city) as [e|[status payload]] eqn:E; cbn [bind].
  - right. split; [reflexivity|]. eexists. split; [reflexivity|].
    now apply append_not_empty.
  - cbn [status_code]. destruct (status =? 200) eqn:Es.
    + apply Z.eqb_eq in Es. subst status.
      destruct payload as [data|]; cbn.
      * left. split; [reflexivity|]. eexists. split; [reflexivity|]. auto.
      * right. split; [reflexivity|]. eexists. split; [reflexivity|].
        discriminate.
    + right. split; [reflexivity|]. eexists. split; [reflexivity|].
      now apply append_not_empty.
Qed.

(** Which message the geocoder gives for which failure: a transport
    exception, an undecodable body and a first result without [lat] or
    [lon] are all reported as "Connection error"; a status other than 200
    as "API Error" with the status; a status-200 answer that is not a
    non-empty list as "City not found". *)
Theorem get_city_coordinates_messages :
  forall requests_get city,
    (forall e,
        requests_get (GeoDirect city) = inl e ->
        get_city_coordinates requests_get city
        = (JNull, JNull, JStr ("Connection error: " ++ str_exn e))) /\
    (forall status payload,
        requests_get (GeoDirect city)
        = inr {| status_code := status; body := payload |} ->
        status <> 200 ->
        get_city_coordinates requests_get city
        = (JNull, JNull, JStr ("API Error: " ++ str_int status))) /\
    (requests_get (GeoDirect city)
     = inr {| status_code := 200; body := None |} ->
     get_city_coordinates requests_get city
     = (JNull, JNull,
        JStr ("Connection error: " ++ str_exn JSONDecodeError))) /\
    (forall data,
        requests_get (GeoDirect city)
        = inr {| status_code := 200; body := Some data |} ->
        (forall first rest, data <> JArr (first :: rest)) ->
        get_city_coordinates requests_get city
        = (JNull, JNull, JStr "City not found.")) /\
    (forall first rest e,
        requests_get (GeoDirect city)
        = inr {| status_code := 200; body := Some (JArr (first :: rest)) |} ->
        getitem first "lat" = inl e \/
        (exists lat, getitem first "lat" = inr lat /\
                     getitem first "lon" = inl e) ->
        get_city_coordinates requests_get city
        = (JNull, JNull, JStr ("Connection error: " ++ str_exn e))).
Proof.
  intros requests_get city. unfold get_city_coordinates.
  split; [|split; [|split; [|split]]].
  - intros e ->. reflexivity.
  - intros status payload -> Hs. cbn [bind status_code].
    apply Z.eqb_neq in Hs. now rewrite Hs.
  - intros ->. reflexivity.
  - intros data -> Hdata. cbn [bind status_code Z.eqb Pos.eqb json_of body].
    destruct data as [| b | q | s | [|first rest] | fields]; try reflexivity.
    now destruct (Hdata first rest).
  - intros first rest e -> H.
    cbn [bind status_code Z.eqb Pos.eqb json_of body ret isinstance_list len
         List.length].
    replace (0 <? Z.of_nat (S (List.length rest))) with true
      by (symmetry; apply Z.ltb_lt; lia).
    cbn [bind ret getitem0].
    destruct H as [-> | (lat & -> & ->)]; reflexivity.
Qed.

Lemma geocoder_error_slot requests_get city :
  snd (get_city_coordinates requests_get city) = JNull \/
  exists msg,
    snd (get_city_coordinates requests_get city) = JStr msg /\ msg <> "".
Proof.
  unfold get_city_coordinates.
  destruct (requests_get (GeoDirect city)) as [e|[status payload]];
    cbn [bind status_code].
  { right. eexists. split; [reflexivity|]. now apply append_not_empty. }
  destruct (status =? 200).
  2:{ right. eexists. split; [reflexivity|]. now apply append_not_empty. }
  destruct payload as [data|]; cbn [json_of body bind ret raise].
  2:{ right. eexists. split; [reflexivity|]. discriminate. }
  destruct (if isinstance_list data then n <- len data;; ret (0 <? n)
            else ret false) as [e|[|]]; cbn [bind].
  - right. eexists. split; [reflexivity|]. now apply append_not_empty.
  - destruct (getitem0 data) as [e|first]; cbn [bind];
      [right; eexists; split; [reflexivity|now apply append_not_empty]|].
    destruct (getitem first "lat") as [e|lat]; cbn [bind];
      [right; eexists; split; [reflexivity|now apply append_not_empty]|].
    destruct (getitem first "lon") as [e|lon]; cbn [bind];
      [right; eexists; split; [reflexivity|now apply append_not_empty]|].
    now left.
  - right. eexists. split; [reflexivity|]. discriminate.
Qed.

(** Line 95, [if coord_error:]: the geocoder's error slot is truthy
    exactly when it is not [None], so every failure of the geocoder
    takes the stop branch and a success never does. *)
Theorem coord_error_truthy :
  forall requests_get city,
    let '(_, _, coord_error) := get_city_coordinates requests_get city in
    truthy coord_error = true <-> coord_error <> JNull.
Proof.
  intros requests_get city.
  pose proof (geocoder_error_slot requests_get city) as H.
  destruct (get_city_coordinates requests_get city) as [[lat lon] err].
  cbn [snd] in H. destruct H as [-> | (msg & -> & Hmsg)].
  - simpl. split; [discriminate|congruence].
  - simpl. split; [discriminate|]. intros _.
    destruct msg; [congruence|reflexivity].
Qed.

(** ** Size of the daily table *)

Lemma insert_unique_length d ks :
  (List.length (insert_unique d ks) <= S (List.length ks))%nat.
Proof.
  induction ks as [|k ks IH]; simpl; [lia|].
  destruct (d <? k); simpl; [lia|]. destruct (d =? k); simpl; lia.
Qed.

Lemma sorted_unique_length l :
  (List.length (sorted_unique l) <= List.length l)%nat.
Proof.
  induction l as [|a l IH]; simpl; [lia|].
  pose proof (insert_unique_length a (sorted_unique l)). lia.
Qed.

Lemma daily_forecast_rows df :
  (List.length (emitted (daily_forecast df)) <= List.length df)%nat.
Proof.
  destruct df as [|r df]; [simpl; lia|].
  destruct (daily_forecast_spec r df) as (aggs & -> & Hdates & _).
  cbn [emitted]. rewrite <- (length_map Date), Hdates.
  etransitivity; [apply sorted_unique_length|]. now rewrite length_map.
Qed.

(** The items kept by line 110 are a prefix of the feed, whatever the day
    count; for a day count [D >= 0] there are at most [8 * D] of them, and
    the daily table never has more rows than items were kept. *)
Theorem daily_table_size :
  forall utcoffset u D feed,
    0 <= D ->
    (exists rest, feed = (forecast_list D feed ++ rest)%list) /\
    Z.of_nat (List.length (forecast_list D feed)) <= 8 * D /\
    (List.length
       (emitted (daily_forecast
                   (forecast_data utcoffset u (forecast_list D feed))))
     <= List.length (forecast_list D feed))%nat.
Proof.
  intros utcoffset u D feed HD. rewrite forecast_list_firstn by assumption.
  split; [|split].
  - exists (skipn (Z.to_nat (D * 8)) feed). symmetry. apply firstn_skipn.
  - pose proof (firstn_le_length (Z.to_nat (D * 8)) feed). lia.
  - etransitivity; [apply daily_forecast_rows|].
    now rewrite forecast_data_length.
Qed.

Lemma daily_table_size_witness :
  0 <= 2 /\
  (List.length
     (emitted (daily_forecast
                 (forecast_data (fun _ => 0%Z) Celsius
                                (forecast_list 2%Z sample_feed))))
   <= List.length (forecast_list 2%Z sample_feed))%nat.
Proof.
  split; [lia|].
  exact (proj2 (proj2 (@daily_table_size (fun _ => 0) Celsius 2 sample_feed
                         ltac:(lia)))).
Defined.

Lemma seq_strictly_sorted n start :
  StronglySorted Z.lt (map Z.of_nat (seq start n)).
Proof.
  revert start. induction n as [|n IH]; intros start; simpl; constructor.
  - apply IH.
  - apply Forall_forall. intros x Hx. apply in_map_iff in Hx.
    destruct Hx as (k & <- & Hk). apply in_seq in Hk. lia.
Qed.

Lemma three_hourly_date i :
  item_date (fun _ => 10800)
            (sample_item (10800 * Z.of_nat i) 20%Q 3%Q "clear sky")
  = (Z.of_nat i + 1) / 8.
Proof.
  unfold item_date, fromtimestamp, date_of. cbn [dt sample_item].
  replace (10800 * Z.of_nat i + 10800) with (10800 * (Z.of_nat i + 1)) by lia.
  change 86400 with (10800 * 8). apply Z.div_mul_cancel_l; lia.
Qed.

(** A feed of exactly [8 * D] three-hourly items does not fit in [D]
    calendar days unless it starts at local midnight: when the first item
    falls at 03:00 local time the daily table has [D + 1] rows. *)
Theorem daily_table_one_more_day :
  forall u (D : nat),
    (1 <= D)%nat ->
    map Date
        (emitted (daily_forecast
                    (forecast_data (fun _ => 10800) u
                       (forecast_list (Z.of_nat D)
                                      (three_hourly_feed (8 * D))))))
    = map Z.of_nat (seq 0 (S D)).
Proof.
  intros u D HD.
  rewrite forecast_list_firstn by lia.
  rewrite firstn_all2
    by (unfold three_hourly_feed; rewrite length_map, length_seq; lia).
  destruct (three_hourly_feed (8 * D)) as [|p ps] eqn:Efeed.
  { apply (f_equal (@List.length _)) in Efeed.
    unfold three_hourly_feed in Efeed.
    rewrite length_map, length_seq in Efeed. simpl in Efeed. lia. }
  change (forecast_data (fun _ => 10800) u (p :: ps))
    with (forecast_row (fun _ => 10800) u p
          :: forecast_data (fun _ => 10800) u ps).
  destruct (daily_forecast_spec (forecast_row (fun _ => 10800) u p)
              (forecast_data (fun _ => 10800) u ps)) as (aggs & -> & Hd & _).
  cbn [emitted]. rewrite Hd.
  change (forecast_row (fun _ => 10800) u p
          :: forecast_data (fun _ => 10800) u ps)
    with (forecast_data (fun _ => 10800) u (p :: ps)).
  rewrite forecast_data_dates, <- Efeed.
  apply strictly_sorted_ext.
  - apply sorted_unique_sorted.
  - apply seq_strictly_sorted.
  - intros x. rewrite In_sorted_unique. unfold three_hourly_feed.
    rewrite map_map, !in_map_iff. split.
    + intros (i & <- & Hi). apply in_seq in Hi. rewrite three_hourly_date.
      exists (Z.to_nat ((Z.of_nat i + 1) / 8)).
      assert (0 <= (Z.of_nat i + 1) / 8 <= Z.of_nat D).
      { split; [apply Z.div_pos; lia|].
        apply Z.div_le_upper_bound; lia. }
      split; [lia|]. apply in_seq. lia.
    + intros (k & <- & Hk). apply in_seq in Hk.
      destruct k as [|k].
      * exists 0%nat. split; [now rewrite three_hourly_date|].
        apply in_seq. lia.
      * exists (8 * S k - 1)%nat. split; [|apply in_seq; lia].
        rewrite three_hourly_date.
        replace (Z.of_nat (8 * S k - 1) + 1) with (Z.of_nat (S k) * 8) by lia.
        apply Z.div_mul. lia.
Qed.

Lemma daily_table_one_more_day_witness :
  (1 <= 3)%nat /\
  map Date
      (emitted (daily_forecast
                  (forecast_data (fun _ => 10800) Celsius
                     (forecast_list 3 (three_hourly_feed 24)))))
  = [0; 1; 2; 3].
Proof.
  split; [lia|].
  exact (daily_table_one_more_day Celsius (D := 3) ltac:(lia)).
Defined.

(** ** Alerts *)

(** On a frame with at least one row the alert list is one of four: empty,
    wind only, heat only, or wind followed by heat; the heat alert names
    the threshold of the active unit. *)
Theorem alerts_shape :
  forall u r df,
    exists al,
      alerts u (r :: df) = inr al /\
      (al = [] \/ al = [HighWind] \/
       al = [ExtremeHeat (heat_threshold u)] \/
       al = [HighWind; ExtremeHeat (heat_threshold u)]).
Proof.
  intros u r df. rewrite alerts_nonempty. eexists. split; [reflexivity|].
  destruct (Qgtb _ 10); destruct (Qgtb _ (inject_Z _)); simpl; auto.
Qed.

Lemma existsb_forecast_data utcoffset u (f : Row -> bool) items :
  existsb f (forecast_data utcoffset u items)
  = existsb (fun item => f (forecast_row utcoffset u item)) items.
Proof.
  induction items as [|p ps IH]; simpl; [reflexivity|]. now rewrite IH.
Qed.

Lemma existsb_pointwise A (f g : A -> bool) l :
  (forall a, f a = g a) -> existsb f l = existsb g l.
Proof.
  intros H. induction l as [|a l IH]; simpl; [reflexivity|].
  now rewrite H, IH.
Qed.

(** 35 degrees Celsius is 95 degrees Fahrenheit: a reading is above the
    Fahrenheit threshold after conversion exactly when it is above the
    Celsius threshold before. *)
Lemma heat_threshold_converted t :
  Qgtb (convert Fahrenheit t) (inject_Z (heat_threshold Fahrenheit))
  = Qgtb (convert Celsius t) (inject_Z (heat_threshold Celsius)).
Proof.
  unfold Qgtb. f_equal. apply eq_true_iff_eq. rewrite !Qle_bool_iff.
  cbn [convert heat_threshold].
  change (inject_Z 95) with 95%Q. change (inject_Z 35) with 35%Q.
  change (t * 9 / 5)%Q with (t * 9 * (1 # 5))%Q.
  split; intros H; lra.
Qed.

(** The unit chosen in the sidebar never changes which alerts fire: the
    same feed gives the same kinds of alerts, in the same order, under
    Fahrenheit and under Celsius. *)
Theorem alerts_unit_independent :
  forall utcoffset items,
    map is_wind (emitted (alerts Fahrenheit
                            (forecast_data utcoffset Fahrenheit items)))
    = map is_wind (emitted (alerts Celsius
                              (forecast_data utcoffset Celsius items))).
Proof.
  intros utcoffset [|p ps]; [reflexivity|].
  assert (Hcons : forall u,
             forecast_data utcoffset u (p :: ps)
             = forecast_row utcoffset u p :: forecast_data utcoffset u ps)
    by reflexivity.
  rewrite !Hcons, !alerts_nonempty, !column_max_exceeds, <- !Hcons.
  rewrite !existsb_forecast_data. cbn [emitted].
  replace (existsb (fun item => Qgtb (Temperature
                                        (forecast_row utcoffset Fahrenheit item))
                                     (inject_Z (heat_threshold Fahrenheit)))
                   (p :: ps))
    with (existsb (fun item => Qgtb (Temperature
                                       (forecast_row utcoffset Celsius item))
                                    (inject_Z (heat_threshold Celsius)))
                  (p :: ps)).
  - cbn [forecast_row Wind_Speed].
    destruct (existsb _ (p :: ps)); destruct (existsb _ (p :: ps));
      reflexivity.
  - apply existsb_pointwise. intros item. cbn [forecast_row Temperature].
    symmetry. apply heat_threshold_converted.
Qed.

(** ** Aggregation and unit conversion *)

Lemma convert_monotone u x y : (x <= y)%Q -> (convert u x <= convert u y)%Q.
Proof.
  destruct u; cbn [convert]; [auto|]. intros H.
  change (x * 9 / 5)%Q with (x * 9 * (1 # 5))%Q.
  change (y * 9 / 5)%Q with (y * 9 * (1 # 5))%Q. lra.
Qed.

Lemma series_max_convert u x xs :
  (series_max (map (convert u) (x :: xs)) == convert u (series_max (x :: xs)))%Q.
Proof.
  apply Qle_antisym.
  - pose proof (series_max_In (convert u x) (map (convert u) xs)) as Hin.
    change (convert u x :: map (convert u) xs)
      with (map (convert u) (x :: xs)) in Hin.
    apply in_map_iff in Hin. destruct Hin as (y & <- & Hy).
    apply convert_monotone. now apply series_max_ge.
  - apply series_max_ge. apply in_map. apply series_max_In.
Qed.

Lemma series_min_convert u x xs :
  (series_min (map (convert u) (x :: xs)) == convert u (series_min (x :: xs)))%Q.
Proof.
  apply Qle_antisym.
  - apply series_min_le. apply in_map. apply series_min_In.
  - pose proof (series_min_In (convert u x) (map (convert u) xs)) as Hin.
    change (convert u x :: map (convert u) xs)
      with (map (convert u) (x :: xs)) in Hin.
    apply in_map_iff in Hin. destruct Hin as (y & <- & Hy).
    apply convert_monotone. now apply series_min_le.
Qed.

Lemma mapM_compose A B C (f : B -> result C) (g : A -> B) l :
  mapM f (map g l) = mapM (fun a => f (g a)) l.
Proof.
  induction l as [|a l IH]; simpl; [reflexivity|]. now rewrite IH.
Qed.

Lemma mapM_Forall2 A B (f g : A -> result B) (R : B -> B -> Prop) l :
  (forall a, In a l -> exists b c, f a = inr b /\ g a = inr c /\ R b c) ->
  exists bs cs,
    mapM f l = inr bs /\ mapM g l = inr cs /\ Forall2 R bs cs.
Proof.
  induction l as [|a l IH]; simpl; intros H.
  - exists [], []. repeat split. constructor.
  - destruct (H a (or_introl eq_refl)) as (b & c & -> & -> & HR).
    destruct IH as (bs & cs & -> & -> & HF); [auto|].
    exists (b :: bs), (c :: cs). repeat split. now constructor.
Qed.

(** The groups of the frame are the images of the groups of the kept
    items, whatever the unit. *)
Lemma groupby_forecast_data utcoffset u items :
  groupby row_date (forecast_data utcoffset u items)
  = map (fun d =>
           (d, forecast_data utcoffset u
                 (filter (fun item => item_date utcoffset item =? d) items)))
        (sorted_unique (map (item_date utcoffset) items)).
Proof.
  unfold groupby. rewrite forecast_data_dates. apply map_ext. intros d.
  unfold forecast_data. now rewrite filter_map_swap.
Qed.

(** Aggregating after converting to Fahrenheit gives the same days as
    aggregating in Celsius: the same dates, mean humidity, mean wind and
    descriptions, and a minimum and a maximum that are the conversions of
    the Celsius minimum and maximum (the conversion is monotone, so it
    commutes with both selections). *)
Theorem daily_forecast_converted :
  forall utcoffset p ps,
    exists celsius fahrenheit,
      daily_forecast (forecast_data utcoffset Celsius (p :: ps))
      = inr celsius /\
      daily_forecast (forecast_data utcoffset Fahrenheit (p :: ps))
      = inr fahrenheit /\
      Forall2 in_fahrenheit celsius fahrenheit.
Proof.
  intros utcoffset p ps.
  assert (Hdf : forall u,
             daily_forecast (forecast_data utcoffset u (p :: ps))
             = mapM (fun g => aggregate (fst g) (snd g))
                    (groupby row_date (forecast_data utcoffset u (p :: ps))))
    by reflexivity.
  rewrite !Hdf, !groupby_forecast_data, !mapM_compose. cbn [fst snd].
  apply mapM_Forall2. intros d Hd.
  apply In_sorted_unique, in_map_iff in Hd. destruct Hd as (q & Hq & Hin).
  destruct (filter (fun item => item_date utcoffset item =? d) (p :: ps))
    as [|b bs] eqn:Eb.
  { exfalso.
    assert (Hf : In q (filter (fun item => item_date utcoffset item =? d)
                              (p :: ps))).
    { apply filter_In. split; [assumption|]. now apply Z.eqb_eq. }
    now rewrite Eb in Hf. }
  assert (Hcons : forall u,
             forecast_data utcoffset u (b :: bs)
             = forecast_row utcoffset u b :: forecast_data utcoffset u bs)
    by reflexivity.
  rewrite !Hcons.
  destruct (aggregate_fields d (forecast_row utcoffset Celsius b)
              (forecast_data utcoffset Celsius bs)) as (mc & Hmc & ->).
  destruct (aggregate_fields d (forecast_row utcoffset Fahrenheit b)
              (forecast_data utcoffset Fahrenheit bs)) as (mf & Hmf & ->).
  do 2 eexists. split; [reflexivity|]. split; [reflexivity|].
  rewrite <- !Hcons in *.
  assert (Htemp : forall u,
             map Temperature (forecast_data utcoffset u (b :: bs))
             = map (convert u) (map temp (b :: bs))).
  { intros u. unfold forecast_data. now rewrite !map_map. }
  assert (Hdesc : forall u,
             map Description (forecast_data utcoffset u (b :: bs))
             = map (fun item => title (description item)) (b :: bs)).
  { intros u. unfold forecast_data. now rewrite map_map. }
  assert (Hhum : forall u,
             map Humidity_pct (forecast_data utcoffset u (b :: bs))
             = map humidity (b :: bs)).
  { intros u. unfold forecast_data. now rewrite map_map. }
  assert (Hwind : forall u,
             map Wind_Speed (forecast_data utcoffset u (b :: bs))
             = map speed (b :: bs)).
  { intros u. unfold forecast_data. now rewrite map_map. }
  unfold in_fahrenheit.
  cbn [Date Temp_Avg Temp_Min Temp_Max Humidity Wind Desc].
  rewrite !Htemp, !Hhum, !Hwind. rewrite Hdesc in Hmc, Hmf.
  cbn [convert]. rewrite !map_id.
  change (map temp (b :: bs)) with (temp b :: map temp bs).
  split; [reflexivity|].
  split; [apply (series_min_convert Fahrenheit)|].
  split; [apply (series_max_convert Fahrenheit)|].
  split; [reflexivity|]. split; [reflexivity|]. congruence.
Qed.

Lemma series_mean_between x xs lo hi :
  (forall y, In y (x :: xs) -> lo <= y /\ y <= hi)%Q ->
  (lo <= series_mean (x :: xs) /\ series_mean (x :: xs) <= hi)%Q.
Proof.
  intros H. unfold series_mean. split.
  - apply Qle_shift_div_l; [apply count_positive|].
    rewrite Qmult_comm. apply series_sum_lower. intros y Hy. now apply H.
  - apply Qle_shift_div_r; [apply count_positive|].
    rewrite Qmult_comm. apply series_sum_upper. intros y Hy. now apply H.
Qed.

(** Daily means stay in range: when every kept item has a whole-number
    humidity between 0 and 100 and a wind speed that is not negative, every
    row of the daily table has a mean humidity between 0 and 100 and a mean
    wind that is not negative. *)
Theorem daily_means_in_range :
  forall utcoffset u items,
    Forall (fun item =>
              (exists percent : Z,
                  0 <= percent <= 100 /\ humidity item = inject_Z percent) /\
              (0 <= speed item)%Q) items ->
    Forall (fun a => (0 <= Humidity a /\ Humidity a <= 100)%Q /\
                     (0 <= Wind a)%Q)
           (emitted (daily_forecast (forecast_data utcoffset u items))).
Proof.
  intros utcoffset u [|p ps] Hitems; [constructor|].
  assert (Hcons : forecast_data utcoffset u (p :: ps)
                  = forecast_row utcoffset u p :: forecast_data utcoffset u ps)
    by reflexivity.
  rewrite Hcons.
  destruct (daily_forecast_spec (forecast_row utcoffset u p)
              (forecast_data utcoffset u ps)) as (aggs & -> & _ & Hb).
  rewrite <- Hcons in Hb. cbn [emitted].
  apply Forall_forall. intros a Ha.
  destruct (Hb a Ha) as (r0 & rs & Hfilter & Hagg).
  destruct (aggregate_fields (Date a) r0 rs) as (m & _ & Hfields).
  rewrite Hagg in Hfields. injection Hfields as Hrecord.
  rewrite Hrecord. cbn [Humidity Wind].
  assert (Hrows : forall r, In r (r0 :: rs) ->
             (0 <= Humidity_pct r /\ Humidity_pct r <= 100)%Q /\
             (0 <= Wind_Speed r)%Q).
  { intros r Hr. rewrite <- Hfilter in Hr. apply filter_In in Hr.
    destruct Hr as [Hr _]. apply in_map_iff in Hr.
    destruct Hr as (item & <- & Hitem).
    rewrite Forall_forall in Hitems.
    destruct (Hitems item Hitem) as ((percent & Hrange & Hpercent) & Hspeed).
    cbn [forecast_row Humidity_pct Wind_Speed]. rewrite Hpercent.
    split; [|assumption]. change 0%Q with (inject_Z 0).
    change 100%Q with (inject_Z 100). rewrite <- !Zle_Qle. lia. }
  split.
  - apply series_mean_between. intros y Hy.
    change (Humidity_pct r0 :: map Humidity_pct rs)
      with (map Humidity_pct (r0 :: rs)) in Hy.
    apply in_map_iff in Hy. destruct Hy as (r & <- & Hr).
    now apply Hrows.
  - unfold series_mean. apply Qle_shift_div_l.
    + apply (count_positive (Wind_Speed r0) (map Wind_Speed rs)).
    + rewrite Qmult_0_l. apply Qle_trans
        with (inject_Z (Z.of_nat (List.length
                                    (Wind_Speed r0 :: map Wind_Speed rs))) * 0)%Q;
        [rewrite Qmult_0_r; apply Qle_refl|].
      apply series_sum_lower. intros y Hy.
      change (Wind_Speed r0 :: map Wind_Speed rs)
        with (map Wind_Speed (r0 :: rs)) in Hy.
      apply in_map_iff in Hy. destruct Hy as (r & <- & Hr).
      now apply Hrows.
Qed.

Lemma sample_feed_readings :
  Forall (fun item =>
            (exists percent : Z,
                0 <= percent <= 100 /\ humidity item = inject_Z percent) /\
            (0 <= speed item)%Q) sample_feed.
Proof.
  repeat constructor; try (cbn; discriminate);
    exists 50; (split; [lia|reflexivity]).
Qed.

Lemma daily_means_in_range_witness :
  Forall (fun a => (0 <= Humidity a /\ Humidity a <= 100)%Q /\
                   (0 <= Wind a)%Q)
         (emitted (daily_forecast
                     (forecast_data (fun _ => 0) Celsius sample_feed))).
Proof.
  exact (@daily_means_in_range (fun _ => 0) Celsius sample_feed
           sample_feed_readings).
Defined.

(** ** The hourly table *)

Lemma select_columns_present labels columns :
  (forall l, In l labels -> existsb (String.eqb l) columns = true) ->
  select_columns labels columns = inr labels.
Proof.
  intros H. unfold select_columns.
  replace (filter (fun l => negb (existsb (String.eqb l) columns)) labels)
    with (@nil string); [reflexivity|].
  symmetry. induction labels as [|l labels IH]; [reflexivity|].
  simpl. rewrite (H l) by now left. simpl. apply IH.
  intros l' Hl'. apply H. now right.
Qed.

Lemma select_columns_missing labels columns m :
  existsb (String.eqb m) columns = false ->
  In m labels ->
  (forall l, In l labels -> l = m \/ existsb (String.eqb l) columns = true) ->
  select_columns labels columns = inl (KeyError m).
Proof.
  intros Hm Hin Hall. unfold select_columns.
  assert (H : exists rest,
             filter (fun l => negb (existsb (String.eqb l) columns)) labels
             = m :: rest).
  { induction labels as [|l labels IH]; [destruct Hin|].
    simpl. destruct (Hall l (or_introl eq_refl)) as [->|Hl].
    - rewrite Hm. simpl. eauto.
    - rewrite Hl. simpl. destruct Hin as [->|Hin]; [congruence|].
      apply IH; [assumption|]. intros l' Hl'. apply Hall. now right. }
  destruct H as (rest & ->). reflexivity.
Qed.

(** Lines 268-270.  The multiselect always offers the Celsius label of the
    temperature column.  Under Celsius every selection is displayed; under
    Fahrenheit the frame has no such column, so the selection raises
    [KeyError] as soon as it contains that label, which the default
    selection does, and is displayed otherwise. *)
Theorem hourly_table_columns :
  forall data_filter r df,
    incl data_filter data_filter_options ->
    hourly_table Celsius data_filter (r :: df)
    = inr ("Datetime" :: data_filter) /\
    (In "Temperature (°C)" data_filter ->
     hourly_table Fahrenheit data_filter (r :: df)
     = inl (KeyError "Temperature (°C)")) /\
    (~ In "Temperature (°C)" data_filter ->
     hourly_table Fahrenheit data_filter (r :: df)
     = inr ("Datetime" :: data_filter)) /\
    hourly_table Fahrenheit default_data_filter (r :: df)
    = inl (KeyError "Temperature (°C)").
Proof.
  intros data_filter r df Hincl. unfold hourly_table.
  cbn [get_column bind ret].
  assert (Hopt : forall l, In l ("Datetime" :: data_filter) ->
             l = "Datetime" \/ l = "Temperature (°C)" \/ l = "Humidity (%)" \/
             l = "Wind Speed (m/s)" \/ l = "Description").
  { intros l [<-|Hl]; [now left|]. right. apply Hincl in Hl.
    simpl in Hl. intuition congruence. }
  split; [|split; [|split]].
  - apply select_columns_present. intros l Hl.
    destruct (Hopt l Hl) as [->|[->|[->|[->| ->]]]]; reflexivity.
  - intros Hin. apply select_columns_missing; [reflexivity|now right|].
    intros l Hl.
    destruct (Hopt l Hl) as [->|[->|[->|[->| ->]]]]; auto.
  - intros Hnot. apply select_columns_present. intros l Hl.
    destruct (Hopt l Hl) as [->|[->|[->|[->| ->]]]]; try reflexivity.
    destruct Hl as [Hl|Hl]; [discriminate|contradiction].
  - reflexivity.
Qed.

Lemma hourly_table_columns_witness :
  incl default_data_filter data_filter_options /\
  hourly_table Celsius default_data_filter
               (forecast_data (fun _ => 0) Celsius sample_feed)
  = inr ("Datetime" :: default_data_filter) /\
  hourly_table Fahrenheit default_data_filter
               (forecast_data (fun _ => 0) Fahrenheit sample_feed)
  = inl (KeyError "Temperature (°C)").
Proof.
  assert (Hincl : incl default_data_filter data_filter_options).
  { intros l Hl. simpl in Hl. simpl. tauto. }
  split; [exact Hincl|]. split.
  - exact (proj1 (@hourly_table_columns default_data_filter _ _ Hincl)).
  - exact (proj2 (proj2 (proj2
             (@hourly_table_columns default_data_filter _ _ Hincl)))).
Defined.

(** ** Description texts *)

Lemma to_lower_facts c :
  is_cased (to_lower c) = is_cased c /\
  to_upper (to_lower c) = to_upper c /\
  to_lower (to_lower c) = to_lower c /\
  is_cased (to_upper c) = is_cased c /\
  to_upper (to_upper c) = to_upper c /\
  to_lower (to_upper c) = to_lower c.
Proof.
  destruct c as [b0 b1 b2 b3 b4 b5 b6 b7].
  destruct b0, b1, b2, b3, b4, b5, b6, b7; repeat split.
Qed.

Lemma title_from_lower b s : title_from b (lower s) = title_from b s.
Proof.
  revert b. induction s as [|c s IH]; intros b; simpl; [reflexivity|].
  destruct (to_lower_facts c) as (-> & -> & -> & _).
  rewrite IH. reflexivity.
Qed.

Lemma title_from_idempotent b s :
  title_from b (title_from b s) = title_from b s.
Proof.
  revert b. induction s as [|c s IH]; intros b; simpl; [reflexivity|].
  destruct (to_lower_facts c) as (Hcl & Hul & Hll & Hcu & Huu & Hlu).
  destruct b.
  - rewrite Hcl, Hll, IH. reflexivity.
  - rewrite Hcu, Huu, IH. reflexivity.
Qed.

Lemma title_from_length b s :
  String.length (title_from b s) = String.length s.
Proof.
  revert b. induction s as [|c s IH]; intros b; simpl; [reflexivity|].
  now rewrite IH.
Qed.

(** The description stored in a row depends only on the letters of the
    feed's text, not on their case, keeps its length, and is a fixed point
    of the title-casing: texts that differ only in case end up as one
    description in the daily counts. *)
Theorem description_case_insensitive :
  forall utcoffset u item,
    Description (forecast_row utcoffset u item)
    = title (lower (description item)) /\
    title (Description (forecast_row utcoffset u item))
    = Description (forecast_row utcoffset u item) /\
    String.length (Description (forecast_row utcoffset u item))
    = String.length (description item).
Proof.
  intros utcoffset u item. cbn [forecast_row Description]. unfold title.
  rewrite title_from_lower, title_from_idempotent, title_from_length.
  repeat split.
Qed.

(** ** Fetching a city *)

Section FetchFacts.

Variable requests_get : request -> result response.

(** The population lookup never raises: it yields the [population] field of
    the first Geonames result of a status-200 answer, and the text
    "Data not available" in every other case. *)
Theorem get_population_never_raises :
  forall city,
    exists v,
      get_population requests_get city = inr v /\
      (v = JStr "Data not available" \/
       exists j g g0,
         requests_get (GeonamesSearch city)
         = inr {| status_code := 200; body := Some j |} /\
         getitem j "geonames" = inr g /\
         getitem0 g = inr g0 /\
         getitem g0 "population" = inr v) /\
      ((forall e, requests_get (GeonamesSearch city) = inl e ->
                  v = JStr "Data not available") /\
       (forall resp, requests_get (GeonamesSearch city) = inr resp ->
                     status_code resp <> 200 ->
                     v = JStr "Data not available")).
Proof.
  intros city. unfold get_population.
  destruct (requests_get (GeonamesSearch city)) as [e|[status payload]] eqn:E;
    cbn [bind try_except ret].
  { eexists. split; [reflexivity|]. split; [now left|].
    split; [reflexivity|discriminate]. }
  cbn [status_code]. destruct (status =? 200) eqn:Es.
  2:{ eexists. split; [reflexivity|]. split; [now left|].
      split; [discriminate|reflexivity]. }
  apply Z.eqb_eq in Es. subst status.
  destruct payload as [j|]; cbn [json_of body bind ret raise try_except].
  2:{ eexists. split; [reflexivity|]. split; [now left|].
      split; [discriminate|]. intros resp H. injection H as <-.
      cbn. congruence. }
  destruct (getitem j "geonames") as [e|g] eqn:Eg; cbn [bind try_except].
  { eexists. split; [reflexivity|]. split; [now left|].
    split; [discriminate|]. intros resp H. injection H as <-. cbn. congruence. }
  destruct (getitem0 g) as [e|g0] eqn:Eg0; cbn [bind try_except].
  { eexists. split; [reflexivity|]. split; [now left|].
    split; [discriminate|]. intros resp H. injection H as <-. cbn. congruence. }
  destruct (getitem g0 "population") as [e|v] eqn:Ev; cbn [bind try_except ret].
  { eexists. split; [reflexivity|]. split; [now left|].
    split; [discriminate|]. intros resp H. injection H as <-. cbn. congruence. }
  exists v. split; [reflexivity|]. split.
  - right. exists j, g, g0. auto.
  - split; [discriminate|]. intros resp H. injection H as <-. cbn. congruence.
Qed.

Lemma get_population_total city :
  exists v, get_population requests_get city = inr v.
Proof.
  destruct (get_population_never_raises city) as (v & H & _). eauto.
Qed.

(** Every run of [get_city_data] ends in one of three ways. *)
Lemma get_city_data_cases city :
  (exists e, get_city_data requests_get city = inl e) \/
  (get_city_data requests_get city = inr None /\ no_record requests_get city) \/
  (exists d, get_city_data requests_get city = inr (Some d) /\
             record_of requests_get city d).
Proof.
  unfold get_city_data, no_record, record_of.
  destruct (requests_get (GeoDirect city)) as [e|[status payload]] eqn:Egeo;
    cbn [bind]; [left; eauto|].
  cbn [status_code]. destruct (status =? 200) eqn:Es; cbn [negb bind ret].
  2:{ right. left. split; [reflexivity|]. eexists. split; [reflexivity|].
      left. cbn. now apply Z.eqb_neq. }
  apply Z.eqb_eq in Es. subst status.
  destruct payload as [j|]; cbn [json_of body bind ret raise];
    [|left; eauto].
  destruct (truthy j) eqn:Ej; cbn [negb bind ret].
  2:{ right. left. split; [reflexivity|]. eexists. split; [reflexivity|].
      right. split; [reflexivity|]. exists j. cbn. auto. }
  destruct (getitem0 j) as [e|first] eqn:Efirst; cbn [bind]; [left; eauto|].
  destruct (getitem first "lat") as [e|lat] eqn:Elat; cbn [bind];
    [left; eauto|].
  destruct (getitem first "lon") as [e|lon] eqn:Elon; cbn [bind];
    [left; eauto|].
  destruct (requests_get (CurrentWeather lat lon)) as [e|[wstatus wpayload]]
    eqn:Ew; cbn [bind]; [left; eauto|].
  cbn [status_code]. destruct (wstatus =? 200) eqn:Ews; cbn [negb].
  2:{ right. left. split; [reflexivity|]. eexists. split; [reflexivity|].
      right. split; [reflexivity|]. exists j. split; [reflexivity|]. right.
      split; [assumption|]. exists first, lat, lon. eexists.
      repeat split; try eassumption. cbn. now apply Z.eqb_neq. }
  apply Z.eqb_eq in Ews. subst wstatus.
  destruct wpayload as [wd|]; cbn [json_of body bind ret raise];
    [|left; eauto].
  destruct (get_population_total city) as (population & Hpop).
  unfold get_population in Hpop |- *. rewrite Hpop. cbn [bind].
  destruct (getitem wd "main") as [e|main] eqn:Emain; cbn [bind];
    [left; eauto|].
  destruct (getitem main "temp") as [e|t] eqn:Et; cbn [bind]; [left; eauto|].
  destruct (getitem main "humidity") as [e|h] eqn:Eh; cbn [bind];
    [left; eauto|].
  destruct (getitem wd "weather") as [e|weather] eqn:Eweather; cbn [bind];
    [left; eauto|].
  destruct (getitem0 weather) as [e|weather0] eqn:Ew0; cbn [bind];
    [left; eauto|].
  destruct (getitem weather0 "description") as [e|c] eqn:Ec; cbn [bind];
    [left; eauto|].
  destruct (getitem weather0 "icon") as [e|i] eqn:Ei; cbn [bind];
    [left; eauto|].
  right. right. eexists. split; [reflexivity|].
  cbn [City Population Latitude Longitude City_Temperature City_Humidity
       Conditions Icon].
  split; [reflexivity|]. split; [reflexivity|].
  exists j, first, wd, main, weather, weather0. repeat split; assumption.
Qed.

(** [get_city_data] returns [None] in exactly three situations: the
    geocoding status is not 200, the geocoding answer is empty, or the
    weather status for the geocoded position is not 200.  An undecodable
    body, a transport exception or a missing field never gives [None]. *)
Theorem get_city_data_none_iff :
  forall city,
    get_city_data requests_get city = inr None <-> no_record requests_get city.
Proof.
  intros city. split.
  - intros H. destruct (get_city_data_cases city)
      as [(e & He)|[(_ & Hno)|(d & Hd & _)]]; [congruence|assumption|congruence].
  - intros (geo & Hgeo & Hcases). unfold get_city_data. rewrite Hgeo.
    cbn [bind].
    destruct Hcases as [Hs|(Hs & j & Hbody & Hj)].
    + apply Z.eqb_neq in Hs. now rewrite Hs.
    + rewrite Hs. cbn [Z.eqb Pos.eqb negb]. unfold json_of. rewrite Hbody.
      cbn [bind ret].
      destruct Hj as [Hj|(Hj & first & lat & lon & weather
                          & Hfirst & Hlat & Hlon & Hw & Hws)].
      * now rewrite Hj.
      * rewrite Hj. cbn [negb bind]. rewrite Hfirst. cbn [bind].
        rewrite Hlat. cbn [bind]. rewrite Hlon. cbn [bind].
        rewrite Hw. cbn [bind]. apply Z.eqb_neq in Hws. now rewrite Hws.
Qed.

(** A fetched record carries the payloads' values unchanged: the
    coordinates of the first geocoding result, the temperature, humidity,
    conditions and icon of the weather answer for those coordinates, the
    value of the population lookup, and the title-cased input as name. *)
Theorem get_city_data_record :
  forall city d,
    get_city_data requests_get city = inr (Some d) ->
    record_of requests_get city d.
Proof.
  intros city d H. destruct (get_city_data_cases city)
    as [(e & He)|[(Hnone & _)|(d' & Hd' & Hrec)]]; congruence.
Qed.

End FetchFacts.

Lemma get_city_data_record_witness :
  get_city_data sample_oracle "Johannesburg" = inr (Some johannesburg_record) /\
  record_of sample_oracle "Johannesburg" johannesburg_record.
Proof.
  split; [reflexivity|].
  exact (@get_city_data_record sample_oracle "Johannesburg"
           johannesburg_record eq_refl).
Defined.

(** ** Composing the comparison *)

Lemma midpoint_cases a b :
  (exists x y,
      as_number a = Some x /\ as_number b = Some y /\
      bind (py_add a b) py_half = inr (JNum ((x + y) / 2)%Q)) \/
  ((as_number a = None \/ as_number b = None) /\
   exists e, bind (py_add a b) py_half = inl e).
Proof.
  destruct a as [|[|]|x|s|l|kv]; destruct b as [|[|]|y|t|m|kw]; cbn;
    try (right; split; [auto|eauto]; fail);
    left; do 2 eexists; repeat split.
Qed.

Lemma midpoint_between (x y : Q) :
  (Qmin x y <= (x + y) / 2 /\ (x + y) / 2 <= Qmax x y)%Q.
Proof.
  change ((x + y) / 2)%Q with ((x + y) * (1 # 2))%Q.
  destruct (Q.min_spec x y) as [[Hlt Hmin]|[Hle Hmin]];
    destruct (Q.max_spec x y) as [[Hlt' Hmax]|[Hle' Hmax]];
    rewrite Hmin, Hmax; split; lra.
Qed.

(** Lines 441-442 succeed exactly when the four coordinates are numbers;
    the centre is then their componentwise mean, which lies between the two
    cities on each axis.  A null or textual coordinate raises. *)
Theorem compose_outcomes :
  forall data1 data2,
    match compose data1 data2 with
    | inr cs =>
        first_city cs = data1 /\ second_city cs = data2 /\
        exists lat1 lon1 lat2 lon2,
          as_number (Latitude data1) = Some lat1 /\
          as_number (Longitude data1) = Some lon1 /\
          as_number (Latitude data2) = Some lat2 /\
          as_number (Longitude data2) = Some lon2 /\
          avg_lat cs = JNum ((lat1 + lat2) / 2)%Q /\
          avg_lon cs = JNum ((lon1 + lon2) / 2)%Q /\
          (Qmin lat1 lat2 <= (lat1 + lat2) / 2 /\
           (lat1 + lat2) / 2 <= Qmax lat1 lat2)%Q /\
          (Qmin lon1 lon2 <= (lon1 + lon2) / 2 /\
           (lon1 + lon2) / 2 <= Qmax lon1 lon2)%Q
    | inl _ =>
        as_number (Latitude data1) = None \/
        as_number (Longitude data1) = None \/
        as_number (Latitude data2) = None \/
        as_number (Longitude data2) = None
    end.
Proof.
  intros data1 data2. unfold compose.
  destruct (midpoint_cases (Latitude data1) (Latitude data2))
    as [(lat1 & lat2 & H1 & H2 & Hlat)|(Hnone & e & Hlat)].
  2:{ unfold bind in Hlat |- *.
      destruct (py_add (Latitude data1) (Latitude data2)) as [e'|s];
        [tauto|]. rewrite Hlat. tauto. }
  destruct (midpoint_cases (Longitude data1) (Longitude data2))
    as [(lon1 & lon2 & H3 & H4 & Hlon)|(Hnone & e & Hlon)].
  2:{ unfold bind in Hlat, Hlon |- *.
      destruct (py_add (Latitude data1) (Latitude data2)) as [e'|s];
        [discriminate|]. rewrite Hlat.
      destruct (py_add (Longitude data1) (Longitude data2)) as [e'|s'];
        [tauto|]. rewrite Hlon. tauto. }
  unfold bind in Hlat, Hlon |- *.
  destruct (py_add (Latitude data1) (Latitude data2)) as [e'|s];
    [discriminate|]. rewrite Hlat.
  destruct (py_add (Longitude data1) (Longitude data2)) as [e'|s'];
    [discriminate|]. rewrite Hlon. cbn.
  split; [reflexivity|]. split; [reflexivity|].
  exists lat1, lon1, lat2, lon2.
  repeat split; try assumption; apply midpoint_between.
Qed.

(** How the "Compare Cities" branch can end.  A comparison set means both
    fetches returned a record, and these are its two records; the failure
    message means both fetches returned and one of them gave [None]; an
    exception is the one raised by the first fetch, or by the second fetch
    (which is made even when the first gave [None]), or by the centre
    computation. *)
Theorem compare_cities_outcomes :
  forall requests_get city1 city2,
    match compare_cities requests_get city1 city2 with
    | inr (Compared cs) =>
        get_city_data requests_get city1 = inr (Some (first_city cs)) /\
        get_city_data requests_get city2 = inr (Some (second_city cs)) /\
        compose (first_city cs) (second_city cs) = inr cs
    | inr (Incomplete msg) =>
        msg = incomplete_message /\
        exists data1 data2,
          get_city_data requests_get city1 = inr data1 /\
          get_city_data requests_get city2 = inr data2 /\
          (data1 = None \/ data2 = None)
    | inl e =>
        get_city_data requests_get city1 = inl e \/
        (exists data1,
            get_city_data requests_get city1 = inr data1 /\
            get_city_data requests_get city2 = inl e) \/
        (exists data1 data2,
            get_city_data requests_get city1 = inr (Some data1) /\
            get_city_data requests_get city2 = inr (Some data2) /\
            compose data1 data2 = inl e)
    end.
Proof.
  intros requests_get city1 city2. unfold compare_cities.
  destruct (get_city_data requests_get city1) as [e|data1]; cbn [bind];
    [now left|].
  destruct (get_city_data requests_get city2) as [e|data2]; cbn [bind];
    [right; left; eauto|].
  destruct data1 as [d1|]; [destruct data2 as [d2|]|].
  - pose proof (compose_outcomes d1 d2) as Hc.
    destruct (compose d1 d2) as [e|cs] eqn:Ec; cbn [bind ret].
    + right. right. eauto.
    + destruct Hc as (-> & -> & _). auto.
  - cbn. split; [reflexivity|]. exists (Some d1), None. auto.
  - cbn. split; [reflexivity|]. exists None, data2. auto.
Qed.

(** When the population lookup of either city did not answer with status
    200, the branch of line 491 draws no population chart: it shows the
    warning and the temperature chart only. *)
Theorem population_fallback_hides_chart :
  forall requests_get city1 city2 data1 data2,
    get_city_data requests_get city1 = inr (Some data1) ->
    get_city_data requests_get city2 = inr (Some data2) ->
    (exists city,
        (city = city1 \/ city = city2) /\
        ((exists e, requests_get (GeonamesSearch city) = inl e) \/
         (exists resp, requests_get (GeonamesSearch city) = inr resp /\
                       status_code resp <> 200))) ->
    comparison_metrics data1 data2 = [PopulationWarning; TemperatureChart].
Proof.
  intros requests_get city1 city2 data1 data2 H1 H2 (city & Hcity & Hfail).
  apply get_city_data_record in H1, H2.
  destruct H1 as (_ & Hp1 & _), H2 as (_ & Hp2 & _).
  assert (Hfallback : get_population requests_get city
                      = inr (JStr "Data not available")).
  { destruct (get_population_never_raises requests_get city)
      as (v & Hv & _ & Hexn & Hstatus).
    rewrite Hv. f_equal.
    destruct Hfail as [(e & He)|(resp & Hresp & Hs)]; eauto. }
  unfold comparison_metrics.
  destruct Hcity as [-> | ->].
  - rewrite Hfallback in Hp1. injection Hp1 as <-. reflexivity.
  - rewrite Hfallback in Hp2. injection Hp2 as <-.
    now rewrite andb_false_r.
Qed.

Lemma population_fallback_hides_chart_witness :
  comparison_metrics johannesburg_record cape_town_record
  = [PopulationWarning; TemperatureChart].
Proof.
  apply (@population_fallback_hides_chart sample_oracle
           "Johannesburg" "Cape Town"); try reflexivity.
  exists "Cape Town". split; [now right|]. right.
  eexists. split; [reflexivity|]. discriminate.
Defined.

(** ** The historical tab *)

Lemma io_bind_trace A B (c : io A) (k : A -> io B) :
  fst (io_bind c k)
  = (fst c ++ match snd c with
              | inr a => fst (k a)
              | inl _ => []
              end)%list.
Proof.
  destruct c as [t [e|a]]; simpl.
  - now rewrite app_nil_r.
  - now destruct (k a).
Qed.

Lemma lift_bind A B (r : result A) (k : A -> io B) :
  io_bind (lift r) k = match r with
                       | inr a => k a
                       | inl e => ([], inl e)
                       end.
Proof.
  destruct r as [e|a]; simpl; [reflexivity|]. now destruct (k a).
Qed.

Lemma io_bind_ret_snd A B (c : io A) (v : B) :
  snd (io_bind c (fun _ => io_ret v))
  = match snd c with
    | inr _ => inr v
    | inl e => inl e
    end.
Proof. now destruct c as [t [e|a]]. Qed.

Lemma io_bind_cons A B (ev : event) (a : A) (k : A -> io B) :
  io_bind ([ev], inr a) k = (ev :: fst (k a), snd (k a)).
Proof. simpl. now destruct (k a). Qed.

Section HistoricalFacts.

Variable requests_get : hist_request -> result response.
Variable timestamp : Type.
Variable to_datetime : json -> result timestamp.
Variable local_hhmm : timestamp -> result string.


(** The daylight block asks the sunrise service and nothing else. *)
Lemma daylight_requests latitude longitude rq :
  In (Requested rq) (fst (daylight requests_get to_datetime local_hhmm latitude longitude)) ->
  rq = SunriseSunset latitude longitude.
Proof.
  unfold daylight, get.
  rewrite io_bind_trace. cbn [fst snd]. intros [H|H]; [congruence|].
  revert H.
  destruct (requests_get (SunriseSunset latitude longitude)) as [e|resp];
    [intros []|].
  rewrite lift_bind. destruct (json_of resp) as [e|sun_data]; [intros []|].
  rewrite lift_bind.
  destruct (getitem sun_data "status") as [e|status]; [intros []|].
  destruct (py_eq_str status "OK"); [|intros [H|[]]; discriminate].
  rewrite lift_bind.
  destruct (getitem sun_data "results") as [e|results]; [intros []|].
  rewrite lift_bind.
  destruct (getitem results "sunrise") as [e|sunrise]; [intros []|].
  rewrite lift_bind.
  destruct (to_datetime sunrise) as [e|sunrise_utc]; [intros []|].
  rewrite lift_bind.
  destruct (getitem results "sunset") as [e|sunset]; [intros []|].
  rewrite lift_bind.
  destruct (to_datetime sunset) as [e|sunset_utc]; [intros []|].
  rewrite lift_bind.
  destruct (local_hhmm sunrise_utc) as [e|sunrise_local]; [intros []|].
  rewrite lift_bind.
  destruct (local_hhmm sunset_utc) as [e|sunset_local]; [intros []|].
  intros [H|[]]. discriminate.
Qed.

(** The NASA request is made for the given position, and only when both
    coordinates are truthy. *)
Lemma load_history_requests latitude longitude rq :
  In (Requested rq) (fst (load_history requests_get latitude longitude)) ->
  rq = NasaPower latitude longitude /\
  truthy latitude = true /\ truthy longitude = true.
Proof.
  unfold load_history, get.
  destruct (truthy latitude); [|intros []].
  destruct (truthy longitude); [|intros []].
  cbn [andb]. rewrite io_bind_trace. cbn [fst snd].
  intros [H|H]; [injection H as <-; auto|]. exfalso. revert H.
  destruct (requests_get (NasaPower latitude longitude)) as [e|resp];
    [intros []|].
  rewrite lift_bind. destruct (json_of resp) as [e|data]; [intros []|].
  rewrite lift_bind.
  destruct (py_in "properties" data) as [e|[|]]; [intros []| |].
  - cbn [negb]. rewrite lift_bind.
    destruct (getitem data "properties") as [e|properties]; [intros []|].
    rewrite lift_bind.
    destruct (getitem properties "parameter") as [e|daily_data];
      [intros []|].
    intros [H|[]]. discriminate.
  - intros [H|[]]. discriminate.
Qed.

(** Historical data is requested only for the coordinates found in a
    status-200 weather answer that has a [coord] entry, and only when both
    coordinates are truthy.  A latitude or longitude of exactly 0 is falsy,
    so a city on the equator or on the prime meridian gets no request. *)
Theorem historical_request_guard :
  forall historical_city latitude longitude,
    In (Requested (NasaPower latitude longitude))
       (fst (historical_tab requests_get to_datetime local_hhmm historical_city)) ->
    truthy latitude = true /\ truthy longitude = true /\
    latitude <> JNum 0 /\ longitude <> JNum 0 /\
    exists data coord,
      requests_get (WeatherByName historical_city)
      = inr {| status_code := 200; body := Some data |} /\
      py_in "coord" data = inr true /\
      getitem data "coord" = inr coord /\
      getitem coord "lat" = inr latitude /\
      getitem coord "lon" = inr longitude.
Proof.
  intros historical_city latitude longitude.
  unfold historical_tab, get.
  destruct (String.eqb historical_city ""); [intros []|].
  rewrite io_bind_trace. cbn [fst snd]. intros [H|H]; [discriminate|].
  revert H.
  destruct (requests_get (WeatherByName historical_city))
    as [e|[status payload]]; [intros []|].
  rewrite lift_bind. destruct payload as [data|]; [|intros []].
  cbn [json_of body ret status_code].
  assert (Hno : forall t,
             In (Requested (NasaPower latitude longitude))
                (fst (io_bind (show t)
                        (fun _ => io_bind (io_ret (JNull, JNull))
                           (fun coordinates =>
                              load_history requests_get (fst coordinates)
                                         (snd coordinates))))) ->
             False).
  { intros t. cbn. intros [H|[]]. discriminate. }
  destruct (status =? 200) eqn:Es.
  2:{ cbn [io_bind io_ret app]. intros H. exfalso.
      apply (Hno (Error ("Could not find the city: " ++ historical_city))).
      rewrite !io_bind_trace in *. exact H. }
  apply Z.eqb_eq in Es. subst status. rewrite lift_bind.
  destruct (py_in "coord" data) as [e|[|]] eqn:Ecoord; [intros []| |].
  2:{ intros H. exfalso.
      apply (Hno (Error ("Could not find the city: " ++ historical_city))).
      rewrite !io_bind_trace in *. exact H. }
  rewrite io_bind_trace, lift_bind.
  destruct (getitem data "coord") as [e|coord] eqn:Ec; [intros []|].
  rewrite lift_bind.
  destruct (getitem coord "lat") as [e|lat] eqn:Elat; [intros []|].
  rewrite !lift_bind.
  destruct (getitem coord "lon") as [e|lon] eqn:Elon; [intros []|].
  cbn [app]. intros H. apply in_app_or in H. destruct H as [H|H].
  { rewrite io_bind_trace in H. apply in_app_or in H. destruct H as [H|H].
    - apply daylight_requests in H. discriminate.
    - destruct (snd (daylight requests_get to_datetime local_hhmm lat lon)); destruct H. }
  revert H. rewrite io_bind_ret_snd.
  destruct (snd (daylight requests_get to_datetime local_hhmm lat lon)) as [e|[]]; [intros []|].
  cbn [snd fst]. intros H.
  apply load_history_requests in H. destruct H as (Hrq & Hlat & Hlon).
  injection Hrq as -> ->.
  split; [assumption|]. split; [assumption|].
  split; [intros ->; discriminate|]. split; [intros ->; discriminate|].
  exists data, coord. auto.
Qed.

(** A city the weather service does not know (a decodable answer with a
    status other than 200, or without a [coord] entry) costs one request
    and shows one error; nothing else is asked or shown. *)
Theorem historical_city_not_found :
  forall historical_city resp data,
    historical_city <> "" ->
    requests_get (WeatherByName historical_city) = inr resp ->
    body resp = Some data ->
    status_code resp <> 200 \/ py_in "coord" data = inr false ->
    historical_tab requests_get to_datetime local_hhmm historical_city
    = ([Requested (WeatherByName historical_city);
        Shown (Error ("Could not find the city: " ++ historical_city))],
       inr tt).
Proof.
  intros historical_city resp data Hcity Hresp Hbody Hmiss.
  unfold historical_tab, get.
  apply String.eqb_neq in Hcity. rewrite Hcity, Hresp.
  destruct resp as [status payload]. cbn [body status_code] in Hbody, Hmiss.
  subst payload. rewrite io_bind_cons, lift_bind.
  cbn [json_of body ret status_code].
  destruct (status =? 200) eqn:Es.
  - destruct Hmiss as [Hs|Hin]; [apply Z.eqb_eq in Es; contradiction|].
    rewrite Hin. reflexivity.
  - reflexivity.
Qed.

(** The body is decoded before the status is looked at: an answer that is
    not JSON ends the run with the decoding exception, whatever its status,
    and a transport failure ends it with its exception; in both cases
    nothing is shown. *)
Theorem historical_undecodable_answer :
  forall historical_city,
    historical_city <> "" ->
    (forall resp,
        requests_get (WeatherByName historical_city) = inr resp ->
        body resp = None ->
        historical_tab requests_get to_datetime local_hhmm historical_city
        = ([Requested (WeatherByName historical_city)], inl JSONDecodeError)) /\
    (forall e,
        requests_get (WeatherByName historical_city) = inl e ->
        historical_tab requests_get to_datetime local_hhmm historical_city
        = ([Requested (WeatherByName historical_city)], inl e)).
Proof.
  intros historical_city Hcity. apply String.eqb_neq in Hcity.
  unfold historical_tab, get. rewrite Hcity. split.
  - intros resp -> Hbody. rewrite io_bind_cons, lift_bind.
    unfold json_of. rewrite Hbody. reflexivity.
  - intros e ->. reflexivity.
Qed.

End HistoricalFacts.

Example historical_tab_on_meridian :
  sample_historical_tab "Greenwich"
  = ([Requested (WeatherByName "Greenwich");
      Requested (SunriseSunset (JNum (5148 # 100)) (JNum 0));
      Shown (Warning "Could not fetch sunrise/sunset data.")],
     inr tt).
Proof. reflexivity. Qed.

Lemma historical_request_guard_witness :
  In (Requested (NasaPower (JNum (-262 # 10)) (JNum (2804 # 100))))
     (fst (sample_historical_tab "Johannesburg")) /\
  truthy (JNum (-262 # 10)) = true /\
  truthy (JNum (2804 # 100)) = true.
Proof.
  assert (H : In (Requested (NasaPower (JNum (-262 # 10))
                                       (JNum (2804 # 100))))
                 (fst (sample_historical_tab "Johannesburg"))).
  { cbn. auto. }
  split; [exact H|].
  destruct (@historical_request_guard sample_history_oracle string
              sample_to_datetime sample_local_hhmm "Johannesburg" _ _ H)
    as (Hlat & Hlon & _).
  split; assumption.
Defined.

Lemma historical_city_not_found_witness :
  sample_historical_tab "Atlantis"
  = ([Requested (WeatherByName "Atlantis");
      Shown (Error "Could not find the city: Atlantis")],
     inr tt).
Proof.
  apply (@historical_city_not_found sample_history_oracle string
           sample_to_datetime sample_local_hhmm "Atlantis"
           {| status_code := 404;
              body := Some (JObj [("cod", JStr "404");
                                  ("message", JStr "city not found")]) |}
           (JObj [("cod", JStr "404"); ("message", JStr "city not found")]));
    [discriminate|reflexivity|reflexivity|left; discriminate].
Defined.

Lemma historical_undecodable_answer_witness :
  historical_tab bad_gateway sample_to_datetime sample_local_hhmm
                 "Johannesburg"
  = ([Requested (WeatherByName "Johannesburg")], inl JSONDecodeError).
Proof.
  apply (proj1 (@historical_undecodable_answer bad_gateway string
                  sample_to_datetime sample_local_hhmm "Johannesburg"
                  ltac:(discriminate))
               {| status_code := 502; body := None |});
    reflexivity.
Defined.

(** ** The lookups on concrete answers *)

Example geocoder_city_not_found :
  get_city_coordinates sample_directory "Atlantis"
  = (JNull, JNull, JStr "City not found.").
Proof. reflexivity. Qed.

Example geocoder_api_error :
  get_city_coordinates
    (fun _ => ret {| status_code := 401; body := Some (JObj []) |}) "Paris"
  = (JNull, JNull, JStr "API Error: 401").
Proof. reflexivity. Qed.

Example geocoder_missing_lat :
  get_city_coordinates
    (fun _ => ok_response (JArr [JObj [("name", JStr "Paris")]])) "Paris"
  = (JNull, JNull, JStr "Connection error: 'lat'").
Proof. reflexivity. Qed.

Example fetcher_bad_gateway :
  get_weather_forecast
    (fun _ => ret {| status_code := 502; body := None |}) "Paris"
  = (JNull, JStr "API Error: 502").
Proof. reflexivity. Qed.
